(** * Cygnusa Guardian: the code sandbox of [backend/code_executor.py]

    A shallow embedding of [CodeSandbox] (security screen, per-test runner,
    comparator, similarity scorer, aggregation and language dispatch) and of
    the pydantic records [TestCaseResult] and [CodeExecutionEvidence] of
    [backend/models.py].

    Python values are the tagged union [pyval]; a Python float is the
    rational [Q] it denotes, and every float operation of the code rounds
    its exact result to the nearest binary64 value with [to_double] (IEEE
    754 round-to-nearest-even; inf, nan and overflow are not modelled).  The parts of
    the CPython runtime the sandbox relies on but that are not written in
    the repository ([repr] of floats and strings, [float()] on a string,
    [json.loads]) are the fields of the class [PyRuntime]; every theorem
    that mentions them holds for every instance. *)

From Stdlib Require Import String Ascii List ZArith QArith Qround Qminmax Qabs Bool Lia Lqa.
Import ListNotations.
Local Set Warnings "-register-all,-abstract-large-number".
Local Open Scope string_scope.
Local Open Scope nat_scope.

(* ------------------------------------------------------------------ *)
(** ** Python values *)

Inductive pyval : Type :=
| VNone
| VBool (b : bool)
| VInt (z : Z)
| VFloat (q : Q)
| VStr (s : string)
| VList (l : list pyval)
| VDict (kv : list (string * pyval)).

(** A character constant by code point, for the characters that cannot be
    written inside a Rocq string literal. *)
Definition chr (n : nat) : string := String (ascii_of_nat n) EmptyString.
Definition dq : string := chr 34.
Definition nl : string := chr 10.

(** Decimal rendering of an integer, as [str(int)]. *)
Fixpoint digits_rev (fuel : nat) (n : Z) (acc : string) : string :=
  match fuel with
  | O => acc
  | S fuel' =>
      let acc' := String (ascii_of_nat (48 + Z.to_nat (n mod 10))) acc in
      if (n <? 10)%Z then acc' else digits_rev fuel' (n / 10)%Z acc'
  end.

Definition Z_to_dec (z : Z) : string :=
  if (z <? 0)%Z
  then "-" ++ digits_rev (S (Z.to_nat (Z.log2 (- z)))) (- z) ""
  else digits_rev (S (Z.to_nat (Z.log2 z))) z "".

(** Python's [str.strip()] on the ASCII range: [str.isspace] holds for
    the characters 9 to 13 and 28 to 32. *)
Definition is_space (c : ascii) : bool :=
  let n := nat_of_ascii c in
  ((9 <=? n) && (n <=? 13)) || ((28 <=? n) && (n <=? 32)).

Fixpoint lstrip (s : string) : string :=
  match s with
  | EmptyString => EmptyString
  | String c s' => if is_space c then lstrip s' else s
  end.

Fixpoint string_rev (s : string) : string :=
  match s with
  | EmptyString => EmptyString
  | String c s' => string_rev s' ++ String c EmptyString
  end.

Definition strip (s : string) : string := string_rev (lstrip (string_rev (lstrip s))).

(** [str.lower()] on the ASCII range. *)
Definition lower_char (c : ascii) : ascii :=
  let n := nat_of_ascii c in
  if (65 <=? n) && (n <=? 90) then ascii_of_nat (n + 32) else c.

Fixpoint lower (s : string) : string :=
  match s with
  | EmptyString => EmptyString
  | String c s' => String (lower_char c) (lower s')
  end.

(** Python's [pattern in text] for strings. *)
Fixpoint prefixb (p s : string) : bool :=
  match p, s with
  | EmptyString, _ => true
  | String a p', String b s' => Ascii.eqb a b && prefixb p' s'
  | String _ _, EmptyString => false
  end.

Fixpoint contains (p s : string) : bool :=
  prefixb p s ||
  match s with
  | EmptyString => false
  | String _ s' => contains p s'
  end.

(** [s[:n]]. *)
Definition truncate (s : string) (n : nat) : string := substring 0 n s.

Fixpoint join (sep : string) (l : list string) : string :=
  match l with
  | [] => ""
  | [x] => x
  | x :: l' => x ++ sep ++ join sep l'
  end.

Fixpoint dict_get (d : list (string * pyval)) (k : string) : option pyval :=
  match d with
  | [] => None
  | (k', v) :: d' => if String.eqb k k' then Some v else dict_get d' k
  end.

(** [bool], [int] and [float] compare by numeric value in Python. *)
Definition num_of (v : pyval) : option Q :=
  match v with
  | VBool b => Some (if b then 1%Q else 0%Q)
  | VInt z => Some (inject_Z z)
  | VFloat q => Some q
  | _ => None
  end.

(** Python's [==] on these values. *)
Fixpoint py_eq (a b : pyval) : bool :=
  match a, b with
  | VNone, VNone => true
  | VStr s, VStr t => String.eqb s t
  | VList l, VList m =>
      (fix go (l m : list pyval) : bool :=
         match l, m with
         | [], [] => true
         | x :: l', y :: m' => py_eq x y && go l' m'
         | _, _ => false
         end) l m
  | VDict d, VDict e =>
      (length d =? length e) &&
      (fix go (d : list (string * pyval)) : bool :=
         match d with
         | [] => true
         | (k, v) :: d' =>
             match dict_get e k with
             | Some w => py_eq v w
             | None => false
             end && go d'
         end) d
  | _, _ =>
      match num_of a, num_of b with
      | Some x, Some y => Qeq_bool x y
      | _, _ => false
      end
  end.

(* ------------------------------------------------------------------ *)
(** ** Binary64 rounding *)

(** [N / D] rounded to an integer, ties to even ([D > 0]). *)
Definition rhe (N D : Z) : Z :=
  let f := (N / D)%Z in
  let r := (N mod D)%Z in
  if (2 * r <? D)%Z then f
  else if (D <? 2 * r)%Z then (f + 1)%Z
  else if Z.even f then f else (f + 1)%Z.

(** The exponent [E] with [2^E <= a / d < 2^(E+1)] ([a, d > 0]). *)
Definition float_exponent (a d : Z) : Z :=
  let k := (Z.log2 a - Z.log2 d)%Z in
  if (if (0 <=? k)%Z then (d * 2 ^ k <=? a)%Z else (d <=? a * 2 ^ (- k))%Z)
  then k else (k - 1)%Z.

(** The binary64 value nearest to [q], ties to even: 53 significant bits,
    subnormals below [2^-1022]; the result is in lowest terms.  The exponent is not bounded above, so
    overflow to [inf] is not modelled. *)
Definition to_double (q : Q) : Q :=
  let q' := Qred q in
  let n := Qnum q' in
  let d := Zpos (Qden q') in
  let a := Z.abs n in
  if (n =? 0)%Z then 0%Q
  else
    let e := Z.max (float_exponent a d - 52) (-1074) in
    if (e <=? 0)%Z then Qred (Qmake (Z.sgn n * rhe (a * 2 ^ (- e)) d) (Z.to_pos (2 ^ (- e))))
    else inject_Z (Z.sgn n * rhe a (d * 2 ^ e) * 2 ^ e).

(* ------------------------------------------------------------------ *)
(** ** The runtime services the sandbox uses *)

Class PyRuntime : Type := {
  float_repr : Q -> string;                 (* repr(float) *)
  str_repr : string -> string;              (* repr(str) *)
  float_of_str : string -> option Q;        (* float(str); None = ValueError *)
  json_loads : string -> option pyval       (* None = JSONDecodeError *)
}.

Section Values.
Context {RT : PyRuntime}.

Fixpoint py_repr (v : pyval) : string :=
  match v with
  | VNone => "None"
  | VBool true => "True"
  | VBool false => "False"
  | VInt z => Z_to_dec z
  | VFloat q => float_repr q
  | VStr s => str_repr s
  | VList l =>
      "[" ++ (fix go (l : list pyval) : string :=
                match l with
                | [] => ""
                | [x] => py_repr x
                | x :: l' => py_repr x ++ ", " ++ go l'
                end) l ++ "]"
  | VDict d =>
      "{" ++ (fix go (d : list (string * pyval)) : string :=
                match d with
                | [] => ""
                | [(k, x)] => str_repr k ++ ": " ++ py_repr x
                | (k, x) :: d' => str_repr k ++ ": " ++ py_repr x ++ ", " ++ go d'
                end) d ++ "}"
  end.

(** [str(v)]. *)
Definition py_str (v : pyval) : string :=
  match v with
  | VStr s => s
  | _ => py_repr v
  end.

(** [float(v)]; [None] stands for the [ValueError] or [TypeError] raised.
    [float(int)] rounds to the nearest double (the [OverflowError] of an
    int beyond the double range is not modelled). *)
Definition py_float (v : pyval) : option Q :=
  match v with
  | VBool b => Some (if b then 1%Q else 0%Q)
  | VInt z => Some (to_double (inject_Z z))
  | VFloat q => Some q
  | VStr s => float_of_str s
  | _ => None
  end.

End Values.

(** Strict order on [Q] as a boolean. *)
Definition Qltb (x y : Q) : bool := negb (Qle_bool y x).

(** [round(x, n)]: round half to even at [n] decimals, on the exact value. *)
Definition py_round (x : Q) (n : nat) : Q :=
  let s := inject_Z (10 ^ Z.of_nat n)%Z in
  let y := (x * s)%Q in
  let f := Qfloor y in
  let r := (y - inject_Z f)%Q in
  let k :=
    if Qltb r (1 # 2) then f
    else if Qltb (1 # 2) r then (f + 1)%Z
    else if Z.even f then f else (f + 1)%Z in
  (inject_Z k / s)%Q.

(** [round(x, n)] on a float: the double nearest to the decimal rounding. *)
Definition round_float (x : Q) (n : nat) : Q := to_double (py_round x n).

Section Comparator.
Context {RT : PyRuntime}.

(** [CodeSandbox._compare_outputs]. *)
Definition _compare_outputs (actual expected : pyval) : bool :=
  (* Direct comparison *)
  if py_eq actual expected then true
  (* String comparison *)
  else if String.eqb (strip (py_str actual)) (strip (py_str expected)) then true
  else
    (* Numeric comparison; ValueError and TypeError are swallowed *)
    let numeric :=
      match py_float actual, py_float expected with
      | Some x, Some y => Qeq_bool x y
      | _, _ => false
      end in
    if numeric then true
    else
      match expected with
      (* Boolean comparison *)
      | VBool _ => py_eq actual expected
      (* List comparison (order matters) *)
      | VList _ =>
          match actual with
          | VList _ => py_eq actual expected
          | _ => false
          end
      | _ => false
      end.

(** The nested [levenshtein_distance] of [_calculate_similarity]: one row
    of the dynamic programme.  [prev] starts at [previous_row[j]] and
    [cur_last] is [current_row[j]]. *)
Fixpoint lev_row (c1 : ascii) (s2 : list ascii) (prev : list nat) (cur_last : nat)
  : list nat :=
  match s2, prev with
  | c2 :: s2', pj :: ((pj1 :: _) as prev') =>
      let insertions := pj1 + 1 in
      let deletions := cur_last + 1 in
      let substitutions := pj + (if Ascii.eqb c1 c2 then 0 else 1) in
      let v := Nat.min (Nat.min insertions deletions) substitutions in
      v :: lev_row c1 s2' prev' v
  | _, _ => []
  end.

(** [for i, c1 in enumerate(s1): current_row = [i + 1] ...]. *)
Fixpoint lev_rows (s1 : list ascii) (i : nat) (s2 : list ascii) (previous_row : list nat)
  : list nat :=
  match s1 with
  | [] => previous_row
  | c1 :: s1' =>
      lev_rows s1' (S i) s2 (S i :: lev_row c1 s2 previous_row (S i))
  end.

Definition lev_core (s1 s2 : list ascii) : nat :=
  if length s2 =? 0 then length s1
  else last (lev_rows s1 0 s2 (seq 0 (length s2 + 1))) 0.

Definition levenshtein_distance (s1 s2 : list ascii) : nat :=
  if length s1 <? length s2 then lev_core s2 s1 else lev_core s1 s2.

(** The numeric near-miss adjustment of [_calculate_similarity]. *)
Definition near_miss (similarity : Q) (str_actual str_expected : string) : Q :=
  match float_of_str str_actual, float_of_str str_expected with
  | Some actual_num, Some expected_num =>
      if negb (Qeq_bool expected_num 0) then
        let pct_diff :=
          to_double (Qabs (to_double (actual_num - expected_num)) / Qabs expected_num) in
        if Qltb pct_diff (to_double (1 # 100)) then Qmax similarity 95
        else if Qltb pct_diff (to_double (5 # 100)) then Qmax similarity 75
        else if Qltb pct_diff (to_double (10 # 100)) then Qmax similarity 50
        else similarity
      else similarity
  | _, _ => similarity
  end.

(** [CodeSandbox._calculate_similarity]. *)
Definition _calculate_similarity (actual expected : pyval) : Q :=
  let str_actual := strip (py_str actual) in
  let str_expected := strip (py_str expected) in
  if String.eqb str_actual str_expected then 100%Q
  else if (String.length str_actual =? 0) || (String.length str_expected =? 0) then 0%Q
  else
    let a := list_ascii_of_string str_actual in
    let e := list_ascii_of_string str_expected in
    let distance := levenshtein_distance a e in
    let max_len := Nat.max (length a) (length e) in
    let similarity :=
      to_double (to_double (inject_Z (Z.of_nat max_len - Z.of_nat distance)
                            / inject_Z (Z.of_nat max_len)) * 100) in
    round_float (near_miss similarity str_actual str_expected) 1.

End Comparator.

(* ------------------------------------------------------------------ *)
(** ** Exceptions and launched processes *)

(** [TimeoutExpired] is caught by its own [except] clause; every other
    exception of the sandbox is an [Exception] subclass, kept with its class
    name and its [str(e)]. *)
Inductive PyExc : Type :=
| TimeoutExpired
| PyException (cls : string) (msg : string).

Inductive res (A : Type) : Type :=
| Ok (a : A)
| Raise (e : PyExc).
Arguments Ok {A} a.
Arguments Raise {A} e.

(** What the host does with one launched program: it exits with a return
    code, captured stdout and stderr and the measured wall-clock time in
    milliseconds; or it outlives the timeout ([subprocess.run] raises
    [TimeoutExpired]); or the launch itself fails (temporary file or process
    creation raises an [OSError]). *)
Inductive ProcOutcome : Type :=
| Exited (returncode : Z) (stdout stderr : string) (elapsed_ms : Q)
| Expired
| LaunchFailed (msg : string).

(** The sandbox computation: the state is the log of the programs handed to
    the host so far (one per launch attempt, in order). *)
Definition M (A : Type) : Type := list string -> res A * list string.

Definition ret {A} (a : A) : M A := fun log => (Ok a, log).
Definition raise {A} (e : PyExc) : M A := fun log => (Raise e, log).
Definition bind {A B} (m : M A) (k : A -> M B) : M B :=
  fun log =>
    match m log with
    | (Ok a, log') => k a log'
    | (Raise e, log') => (Raise e, log')
    end.
(** [try: m except e: handler(e)]. *)
Definition try_except {A} (m : M A) (handler : PyExc -> M A) : M A :=
  fun log =>
    match m log with
    | (Ok a, log') => (Ok a, log')
    | (Raise e, log') => handler e log'
    end.

Notation "x <- m ;; k" := (bind m (fun x => k))
  (at level 61, m at next level, right associativity).

Fixpoint mapM {A B} (f : A -> M B) (l : list A) : M (list B) :=
  match l with
  | [] => ret []
  | x :: l' => y <- f x ;; ys <- mapM f l' ;; ret (y :: ys)
  end.

(** [test_case[k]] on a dict; a missing key raises [KeyError]. *)
Definition getitem {RT : PyRuntime} (d : list (string * pyval)) (k : string) : M pyval :=
  match dict_get d k with
  | Some v => ret v
  | None => raise (PyException "KeyError" (str_repr k))
  end.

(** [d.get(k, default)]. *)
Definition get_default (d : list (string * pyval)) (k : string) (default : pyval) : pyval :=
  match dict_get d k with
  | Some v => v
  | None => default
  end.

(* ------------------------------------------------------------------ *)
(** ** The records of [models.py] *)

(** [TestCaseResult]: the declared fields. *)
Record TestCaseResult : Type := {
  input : string;
  expected : string;
  actual : string;
  passed : bool;
  time_ms : Q;
  error : option string
}.

(** Keyword argument values passed to the constructor beyond the fields. *)
Inductive kwarg : Type :=
| KwNum (q : Q)
| KwBool (b : bool).

(** The arguments of one [TestCaseResult(...)] call. *)
Record TestCaseResult_call : Type := {
  c_input : string;
  c_expected : string;
  c_actual : string;
  c_passed : bool;
  c_time_ms : Q;
  c_error : option string;
  c_extra : list (string * kwarg)
}.

(** [TestCaseResult(...)]: a pydantic [BaseModel] with the default
    configuration ([extra = 'ignore']) keeps the declared fields and
    discards every other keyword argument. *)
Definition TestCaseResult_new (c : TestCaseResult_call) : TestCaseResult :=
  {| input := c_input c; expected := c_expected c; actual := c_actual c;
     passed := c_passed c; time_ms := c_time_ms c; error := c_error c |}.

(** Attribute values of a [TestCaseResult]. *)
Inductive attr : Type :=
| AStr (s : string)
| ABool (b : bool)
| ANum (q : Q)
| AOptStr (o : option string).

(** [r.name]: the declared fields, [AttributeError] for any other name. *)
Definition getattr (r : TestCaseResult) (name : string) : M attr :=
  if String.eqb name "input" then ret (AStr (input r))
  else if String.eqb name "expected" then ret (AStr (expected r))
  else if String.eqb name "actual" then ret (AStr (actual r))
  else if String.eqb name "passed" then ret (ABool (passed r))
  else if String.eqb name "time_ms" then ret (ANum (time_ms r))
  else if String.eqb name "error" then ret (AOptStr (error r))
  else raise (PyException "AttributeError"
                ("'TestCaseResult' object has no attribute '" ++ name ++ "'")).

(** Python truthiness of an attribute value. *)
Definition truthy (a : attr) : bool :=
  match a with
  | AStr s => negb (String.eqb s "")
  | ABool b => b
  | ANum q => negb (Qeq_bool q 0)
  | AOptStr o => match o with Some s => negb (String.eqb s "") | None => false end
  end.

(** [CodeExecutionEvidence]. *)
Record CodeExecutionEvidence : Type := {
  question_id : string;
  question_title : string;
  language : string;
  submitted_code : string;
  test_cases : list TestCaseResult;
  pass_rate : Q;
  avg_time_ms : Q;
  total_tests : nat;
  time_started : option string;
  time_submitted : option string;
  duration_seconds : option Z
}.

Definition mk_evidence (qid qtitle lang code : string) (results : list TestCaseResult)
  (rate avg : Q) (n : nat) : CodeExecutionEvidence :=
  {| question_id := qid; question_title := qtitle; language := lang;
     submitted_code := code; test_cases := results; pass_rate := rate;
     avg_time_ms := avg; total_tests := n;
     time_started := None; time_submitted := None; duration_seconds := None |}.

(* ------------------------------------------------------------------ *)
(** ** [CodeSandbox] *)

(** The class-level configuration of [CodeSandbox]. *)
Record CodeSandbox : Type := {
  TIMEOUT_SECONDS : Z;
  MAX_OUTPUT_LENGTH : nat;
  MAX_MEMORY_MB : Z;
  BANNED_IMPORTS : list string
}.

Definition CodeSandbox_default : CodeSandbox := {|
  TIMEOUT_SECONDS := 10;
  MAX_OUTPUT_LENGTH := 10000;
  MAX_MEMORY_MB := 128;
  BANNED_IMPORTS :=
    ["os"; "subprocess"; "sys"; "socket"; "requests";
     "urllib"; "http"; "ftplib"; "smtplib"; "telnetlib";
     "pickle"; "marshal"; "shelve"; "dbm"; "shutil"; "tempfile";
     "ctypes"; "multiprocessing"; "threading";
     "__builtins__"; "eval"; "exec"; "compile";
     "importlib"; "__import__"]
|}.

(** The import shapes checked for each banned module. *)
Definition import_patterns (banned : string) : list string :=
  ["import " ++ banned;
   "from " ++ banned;
   "__import__('" ++ banned ++ "'";
   "__import__(" ++ dq ++ banned ++ dq].

Definition dangerous_calls : list string :=
  ["eval("; "exec("; "compile("; "open("; "__import__"].

(** [s.rstrip('(')]. *)
Fixpoint drop_parens (s : string) : string :=
  match s with
  | String c s' => if Ascii.eqb c "(" then drop_parens s' else s
  | EmptyString => EmptyString
  end.
Definition rstrip_paren (s : string) : string := string_rev (drop_parens (string_rev s)).

(** The first [Some] of a loop that returns from inside its body. *)
Fixpoint first_some {A} (f : A -> option string) (l : list A) : option string :=
  match l with
  | [] => None
  | x :: l' => match f x with Some r => Some r | None => first_some f l' end
  end.

Definition test_case_dict : Type := list (string * pyval).

Definition python_type_name (v : pyval) : string :=
  match v with
  | VNone => "NoneType" | VBool _ => "bool" | VInt _ => "int" | VFloat _ => "float"
  | VStr _ => "str" | VList _ => "list" | VDict _ => "dict"
  end.

Section Sandbox.
Context {RT : PyRuntime}.
Variable host : nat -> string -> ProcOutcome.
Variable self : CodeSandbox.

(** [tempfile.NamedTemporaryFile] + [subprocess.run(['python', temp_path],
    capture_output=True, timeout=self.TIMEOUT_SECONDS, ...)], timed with
    [time.time()]; the program is recorded in the launch log. *)
Definition run_process (prog : string) : M (Z * string * string * Q) :=
  fun log =>
    (match host (length log) prog with
     | Exited rc out err t => Ok (rc, out, err, t)
     | Expired => Raise TimeoutExpired
     | LaunchFailed m => Raise (PyException "OSError" m)
     end, app log [prog]).

(** [CodeSandbox._check_security]. *)
Definition _check_security (code : string) : option string :=
  let code_lower := lower code in
  match first_some
          (fun banned =>
             if existsb (fun pattern => contains pattern code_lower) (import_patterns banned)
             then Some ("Restricted module detected: " ++ banned) else None)
          (BANNED_IMPORTS self) with
  | Some r => Some r
  | None =>
      first_some
        (fun call =>
           if contains call code_lower
           then Some ("Restricted function detected: " ++ rstrip_paren call) else None)
        dangerous_calls
  end.

(** [CodeSandbox._create_compiler_missing_failure]. *)
Definition _create_compiler_missing_failure (code language q_id q_title : string)
  (test_cases : list test_case_dict) (compiler : string) : CodeExecutionEvidence :=
  let err := "Environment Error: " ++ compiler ++ " compiler not found in sandbox." in
  let results :=
    map (fun tc => TestCaseResult_new {|
           c_input := py_str (get_default tc "input" (VStr ""));
           c_expected := py_str (get_default tc "expected" (VStr ""));
           c_actual := "ENV_ERROR"; c_passed := false; c_time_ms := 0%Q;
           c_error := Some err; c_extra := [] |}) test_cases in
  mk_evidence q_id q_title language code results 0%Q 0%Q (length test_cases).

(** [CodeSandbox._create_unsupported_language_failure]. *)
Definition _create_unsupported_language_failure (code language q_id q_title : string)
  (test_cases : list test_case_dict) : CodeExecutionEvidence :=
  let err := "Error: Language '" ++ language ++ "' is not supported by the sandbox." in
  let results :=
    map (fun tc => TestCaseResult_new {|
           c_input := py_str (get_default tc "input" (VStr ""));
           c_expected := py_str (get_default tc "expected" (VStr ""));
           c_actual := "UNSUPPORTED"; c_passed := false; c_time_ms := 0%Q;
           c_error := Some err; c_extra := [] |}) test_cases in
  mk_evidence q_id q_title language code results 0%Q 0%Q (length test_cases).

(** [CodeSandbox._create_security_failure]. *)
Definition _create_security_failure (code language question_id question_title : string)
  (test_cases : list test_case_dict) (err : string) : CodeExecutionEvidence :=
  let failed_results :=
    map (fun tc => TestCaseResult_new {|
           c_input := py_str (get_default tc "input" (VStr ""));
           c_expected := py_str (get_default tc "expected" (VStr ""));
           c_actual := "BLOCKED"; c_passed := false; c_time_ms := 0%Q;
           c_error := Some err; c_extra := [] |}) test_cases in
  mk_evidence question_id question_title language code failed_results 0%Q 0%Q
    (length test_cases).

(** [CodeSandbox._build_test_wrapper]: the f-string template. *)
Definition _build_test_wrapper (code : string) (test_input : pyval) : string :=
  join nl [
    "";
    "import json";
    "import sys";
    "";
    "def limit_resources():";
    "    # Set maximum memory usage (address space) in bytes";
    "    memory_limit = " ++ Z_to_dec (MAX_MEMORY_MB self) ++ " * 1024 * 1024";
    "    try:";
    "        import resource";
    "        resource.setrlimit(resource.RLIMIT_AS, (memory_limit, memory_limit))";
    "    except (ImportError, Exception):";
    "        # On some systems (like Windows), resource module might have limited functionality or be missing";
    "        pass";
    "";
    "# Set limits before running candidate code";
    "limit_resources()";
    "";
    "# Candidate's code";
    code;
    "";
    "# Test execution";
    "try:";
    "    test_input = " ++ py_repr test_input;
    "    result = solution(test_input)";
    "    print(json.dumps({" ++ dq ++ "result" ++ dq ++ ": result}))";
    "except MemoryError:";
    "    print(json.dumps({" ++ dq ++ "error" ++ dq ++ ": " ++ dq ++ "Memory limit exceeded" ++ dq ++ "}))";
    "    sys.exit(2)";
    "except Exception as e:";
    "    print(json.dumps({" ++ dq ++ "error" ++ dq ++ ": f" ++ dq ++
      "{type(e).__name__}: {str(e)}" ++ dq ++ "}))";
    "    sys.exit(1)";
    ""].

(** The output parsing of [_run_single_test_python]: [json.loads] and
    [.get('result')] on a zero return code ([.get] on a decoded value that
    is not a dict raises [AttributeError]), the raw stdout on a
    [JSONDecodeError], ["ERROR"] and stderr otherwise. *)
Definition parse_output (returncode : Z) (stdout stderr : string)
  : M (pyval * option string) :=
  if (returncode =? 0)%Z then
    match json_loads (strip stdout) with
    | Some (VDict output_data) => ret (get_default output_data "result" VNone, None)
    | Some v =>
        raise (PyException "AttributeError"
                 ("'" ++ python_type_name v ++ "' object has no attribute 'get'"))
    | None =>
        ret (VStr (truncate (strip stdout) (MAX_OUTPUT_LENGTH self)),
             Some "Output parsing error")
    end
  else
    ret (VStr "ERROR",
         Some (if String.eqb stderr "" then "Unknown error" else truncate (strip stderr) 500)).

(** The comparison and the [TestCaseResult(...)] call that ends the [try]
    block of [_run_single_test_python]. *)
Definition graded_call (test_input expected actual_output : pyval)
  (execution_time : Q) (error : option string) : TestCaseResult_call :=
  let passed := _compare_outputs actual_output expected in
  let similarity := if passed then 100%Q else _calculate_similarity actual_output expected in
  let partial_credit := negb passed && Qle_bool 50 similarity in
  {| c_input := py_str test_input;
     c_expected := py_str expected;
     c_actual := py_str actual_output;
     c_passed := passed;
     c_time_ms := round_float execution_time 2;
     c_error := error;
     c_extra := [("similarity_score", KwNum similarity);
                 ("partial_credit", KwBool partial_credit)] |}.

(** The [except subprocess.TimeoutExpired] result. *)
Definition timeout_call (test_case : test_case_dict) : M TestCaseResult_call :=
  i <- getitem test_case "input" ;;
  x <- getitem test_case "expected" ;;
  ret {| c_input := py_str i; c_expected := py_str x; c_actual := "TIMEOUT";
         c_passed := false; c_time_ms := inject_Z (TIMEOUT_SECONDS self * 1000);
         c_error := Some ("Execution exceeded " ++ Z_to_dec (TIMEOUT_SECONDS self)
                          ++ "s time limit");
         c_extra := [] |}.

(** The [except Exception as e] result. *)
Definition exception_call (test_case : test_case_dict) (msg : string) : M TestCaseResult_call :=
  i <- getitem test_case "input" ;;
  x <- getitem test_case "expected" ;;
  ret {| c_input := py_str i; c_expected := py_str x; c_actual := "EXECUTION_ERROR";
         c_passed := false; c_time_ms := 0%Q; c_error := Some (truncate msg 200);
         c_extra := [] |}.

(** [CodeSandbox._run_single_test_python].  The [finally] clause removes
    the temporary file inside its own bare [try/except]; it changes neither
    the result nor the exception. *)
Definition _run_single_test_python (code : string) (test_case : test_case_dict)
  : M TestCaseResult :=
  test_input <- getitem test_case "input" ;;
  let test_code := _build_test_wrapper code test_input in
  try_except
    (proc <- run_process test_code ;;
     let '(returncode, stdout, stderr, execution_time) := proc in
     parsed <- parse_output returncode stdout stderr ;;
     let '(actual_output, error) := parsed in
     expected <- getitem test_case "expected" ;;
     ret (TestCaseResult_new
            (graded_call test_input expected actual_output execution_time error)))
    (fun e =>
       match e with
       | TimeoutExpired => c <- timeout_call test_case ;; ret (TestCaseResult_new c)
       | PyException _ msg => c <- exception_call test_case msg ;; ret (TestCaseResult_new c)
       end).

(** The statistics loop of [execute_python]:
    [if r.passed: ... elif r.partial_credit: total_score += r.similarity_score / 100.0]. *)
Fixpoint accumulate_score (test_results : list TestCaseResult) (total_score : Q) : M Q :=
  match test_results with
  | [] => ret total_score
  | r :: rs =>
      if passed r then accumulate_score rs (to_double (total_score + 1))
      else
        pc <- getattr r "partial_credit" ;;
        if truthy pc then
          s <- getattr r "similarity_score" ;;
          match s with
          | ANum q => accumulate_score rs (to_double (total_score + to_double (q / 100)))
          | _ => raise (PyException "TypeError" "unsupported operand type(s) for /")
          end
        else accumulate_score rs total_score
  end.

(** [sum(...)] of floats, from the int [0]. *)
Definition float_sum (l : list Q) : Q := fold_left (fun acc t => to_double (acc + t)) l 0%Q.

(** [CodeSandbox.execute_python]. *)
Definition execute_python (code : string) (test_cases : list test_case_dict)
  (question_id question_title : string) : M CodeExecutionEvidence :=
  match _check_security code with
  | Some security_error =>
      ret (_create_security_failure code "python" question_id question_title
             test_cases security_error)
  | None =>
      test_results <- mapM (_run_single_test_python code) test_cases ;;
      total_score <- accumulate_score test_results 0%Q ;;
      let n := length test_results in
      let len := to_double (inject_Z (Z.of_nat n)) in
      let pass_rate :=
        if n =? 0 then 0%Q else to_double (to_double (total_score / len) * 100) in
      let avg_time :=
        if n =? 0 then 0%Q
        else to_double (float_sum (map time_ms test_results) / len) in
      (* [round(0, 2)] is the int [0], which the [float] field stores as [0.0] *)
      ret (mk_evidence question_id question_title "python" code test_results
             (round_float pass_rate 2) (round_float avg_time 2) n)
  end.

(** [CodeSandbox.execute_java] and [CodeSandbox.execute_cpp]. *)
Definition execute_java (code : string) (test_cases : list test_case_dict)
  (question_id question_title : string) : CodeExecutionEvidence :=
  _create_compiler_missing_failure code "java" question_id question_title test_cases "javac".

Definition execute_cpp (code : string) (test_cases : list test_case_dict)
  (question_id question_title : string) : CodeExecutionEvidence :=
  _create_compiler_missing_failure code "cpp" question_id question_title test_cases "g++".

(** [CodeSandbox.execute]: dispatch on the lower-cased language. *)
Definition execute (code language : string) (test_cases : list test_case_dict)
  (question_id question_title : string) : M CodeExecutionEvidence :=
  let language := lower language in
  if String.eqb language "python" then execute_python code test_cases question_id question_title
  else if String.eqb language "java" then ret (execute_java code test_cases question_id question_title)
  else if String.eqb language "cpp" then ret (execute_cpp code test_cases question_id question_title)
  else ret (_create_unsupported_language_failure code language question_id question_title test_cases).

End Sandbox.

(* ------------------------------------------------------------------ *)
(** ** A concrete runtime for worked examples

    It covers the literal forms the examples use: [float()] on decimal
    literals ([sign] [digits] [. digits]), [json.loads] on JSON without
    string escapes or exponents, [repr] of strings without both quote
    kinds, and [repr] of floats as a plain decimal expansion. *)

Definition digit_val (c : ascii) : option Z :=
  let n := nat_of_ascii c in
  if (48 <=? n) && (n <=? 57) then Some (Z.of_nat (n - 48)) else None.

Fixpoint take_digits (l : list ascii) (acc : Z) (cnt : nat) : Z * nat * list ascii :=
  match l with
  | c :: l' =>
      match digit_val c with
      | Some d => take_digits l' (acc * 10 + d)%Z (S cnt)
      | None => (acc, cnt, l)
      end
  | [] => (acc, cnt, [])
  end.

Definition decimal_value (ip fp : Z) (nf : nat) : Q :=
  (inject_Z ip + inject_Z fp / inject_Z (10 ^ Z.of_nat nf))%Q.

Definition parse_decimal (l : list ascii) : option (Q * list ascii) :=
  let '(sgn, l1) :=
    match l with
    | c :: r =>
        if Ascii.eqb c "-" then ((-1)%Q, r)
        else if Ascii.eqb c "+" then (1%Q, r) else (1%Q, l)
    | [] => (1%Q, l)
    end in
  let '(ip, ni, l2) := take_digits l1 0 0 in
  match l2 with
  | c :: r =>
      if Ascii.eqb c "." then
        let '(fp, nf, l3) := take_digits r 0 0 in
        if ni + nf =? 0 then None else Some ((sgn * decimal_value ip fp nf)%Q, l3)
      else if ni =? 0 then None else Some ((sgn * inject_Z ip)%Q, l2)
  | [] => if ni =? 0 then None else Some ((sgn * inject_Z ip)%Q, l2)
  end.

Definition decimal_float_of_str (s : string) : option Q :=
  match parse_decimal (list_ascii_of_string (strip s)) with
  | Some (q, []) => Some (to_double q)
  | _ => None
  end.

Definition dq_char : ascii := ascii_of_nat 34.
Definition backslash : ascii := ascii_of_nat 92.

Definition is_json_ws (c : ascii) : bool :=
  let n := nat_of_ascii c in (n =? 32) || (n =? 9) || (n =? 10) || (n =? 13).

Fixpoint skip_ws (l : list ascii) : list ascii :=
  match l with
  | c :: r => if is_json_ws c then skip_ws r else l
  | [] => []
  end.

Fixpoint json_string (l : list ascii) (acc : list ascii) : option (string * list ascii) :=
  match l with
  | [] => None
  | c :: r =>
      if Ascii.eqb c dq_char then Some (string_of_list_ascii (rev acc), r)
      else if Ascii.eqb c backslash then None
      else json_string r (c :: acc)
  end.

Fixpoint match_lit (lit l : list ascii) : option (list ascii) :=
  match lit, l with
  | [], _ => Some l
  | a :: lit', b :: l' => if Ascii.eqb a b then match_lit lit' l' else None
  | _ :: _, [] => None
  end.

Definition json_number (l : list ascii) : option (pyval * list ascii) :=
  let '(neg, l1) :=
    match l with
    | c :: r => if Ascii.eqb c "-" then (true, r) else (false, l)
    | [] => (false, l)
    end in
  let '(ip, ni, l2) := take_digits l1 0 0 in
  if ni =? 0 then None
  else
    match l2 with
    | c :: r =>
        if Ascii.eqb c "." then
          let '(fp, nf, l3) := take_digits r 0 0 in
          if nf =? 0 then None
          else
            let q := decimal_value ip fp nf in
            Some (VFloat (to_double (if neg then (- q)%Q else q)), l3)
        else Some (VInt (if neg then (- ip)%Z else ip), l2)
    | [] => Some (VInt (if neg then (- ip)%Z else ip), l2)
    end.

Fixpoint json_value (fuel : nat) (l : list ascii) {struct fuel} : option (pyval * list ascii) :=
  match fuel with
  | O => None
  | S f =>
      match skip_ws l with
      | [] => None
      | c :: r =>
          if Ascii.eqb c "{" then
            match skip_ws r with
            | c' :: r' => if Ascii.eqb c' "}" then Some (VDict [], r')
                          else json_members f (c' :: r') []
            | [] => None
            end
          else if Ascii.eqb c "[" then
            match skip_ws r with
            | c' :: r' => if Ascii.eqb c' "]" then Some (VList [], r')
                          else json_elements f (c' :: r') []
            | [] => None
            end
          else if Ascii.eqb c dq_char then
            match json_string r [] with
            | Some (s, r') => Some (VStr s, r')
            | None => None
            end
          else
            match match_lit (list_ascii_of_string "true") (c :: r) with
            | Some r' => Some (VBool true, r')
            | None =>
                match match_lit (list_ascii_of_string "false") (c :: r) with
                | Some r' => Some (VBool false, r')
                | None =>
                    match match_lit (list_ascii_of_string "null") (c :: r) with
                    | Some r' => Some (VNone, r')
                    | None => json_number (c :: r)
                    end
                end
            end
      end
  end
with json_elements (fuel : nat) (l : list ascii) (acc : list pyval) {struct fuel}
  : option (pyval * list ascii) :=
  match fuel with
  | O => None
  | S f =>
      match json_value f l with
      | None => None
      | Some (v, r) =>
          match skip_ws r with
          | c :: r' =>
              if Ascii.eqb c "," then json_elements f r' (v :: acc)
              else if Ascii.eqb c "]" then Some (VList (rev (v :: acc)), r') else None
          | [] => None
          end
      end
  end
with json_members (fuel : nat) (l : list ascii) (acc : list (string * pyval)) {struct fuel}
  : option (pyval * list ascii) :=
  match fuel with
  | O => None
  | S f =>
      match skip_ws l with
      | c :: r =>
          if Ascii.eqb c dq_char then
            match json_string r [] with
            | None => None
            | Some (k, r1) =>
                match skip_ws r1 with
                | c1 :: r2 =>
                    if Ascii.eqb c1 ":" then
                      match json_value f r2 with
                      | None => None
                      | Some (v, r3) =>
                          let acc' := (k, v) :: filter (fun p => negb (String.eqb k (fst p))) acc in
                          match skip_ws r3 with
                          | c3 :: r4 =>
                              if Ascii.eqb c3 "," then json_members f r4 acc'
                              else if Ascii.eqb c3 "}" then Some (VDict (rev acc'), r4)
                              else None
                          | [] => None
                          end
                      end
                    else None
                | [] => None
                end
            end
          else None
      | [] => None
      end
  end.

Definition json_loads_min (s : string) : option pyval :=
  let l := list_ascii_of_string s in
  match json_value (S (length l)) l with
  | Some (v, rest) => match skip_ws rest with [] => Some v | _ => None end
  | None => None
  end.

Definition str_repr_min (s : string) : string :=
  if contains "'" s && negb (contains dq s) then dq ++ s ++ dq else "'" ++ s ++ "'".

(** A decimal expansion with at most 16 fractional digits: [repr] of the
    doubles whose exact expansion is that short (such as [2.5]); the
    shortest round-trip digits of other doubles are not computed. *)
Fixpoint frac_digits (fuel : nat) (num den : Z) : string :=
  match fuel with
  | O => ""
  | S f =>
      if (num =? 0)%Z then ""
      else
        let d := (num * 10 / den)%Z in
        String (ascii_of_nat (48 + Z.to_nat d)) (frac_digits f (num * 10 mod den)%Z den)
  end.

Definition float_repr_min (q : Q) : string :=
  let n := Qnum q in
  let d := Zpos (Qden q) in
  let ip := (Z.abs n / d)%Z in
  let fr := frac_digits 16 (Z.abs n mod d)%Z d in
  (if (n <? 0)%Z then "-" else "") ++ Z_to_dec ip ++ "." ++
  (if String.eqb fr "" then "0" else fr).

Definition CPython_min : PyRuntime := {|
  float_repr := float_repr_min;
  str_repr := str_repr_min;
  float_of_str := decimal_float_of_str;
  json_loads := json_loads_min
|}.

(* ================================================================== *)
(** * Properties *)

(* ------------------------------------------------------------------ *)
(** ** Language dispatch *)

Definition non_python_sentinel (language : string) : string :=
  if String.eqb (lower language) "java" || String.eqb (lower language) "cpp"
  then "ENV_ERROR" else "UNSUPPORTED".

Lemma Forall_map_results (P : TestCaseResult -> Prop) (f : test_case_dict -> TestCaseResult)
  (tcs : list test_case_dict) :
  (forall tc, P (f tc)) -> Forall P (map f tcs).
Proof. intros H; induction tcs as [|tc tcs IH]; simpl; constructor; auto. Qed.

(** C10: for every language whose lower-cased form is not ["python"]
    ([java], [cpp] or anything else) and every source text, including one
    with banned imports, [execute] launches nothing and screens nothing:
    every test case is resolved to [ENV_ERROR] (java, cpp) or [UNSUPPORTED]
    (other), not passed, with [time_ms = 0], and the pass rate is 0. *)
Theorem execute_non_python_unscreened :
  forall (RT : PyRuntime) host self (code language : string)
         (tcs : list test_case_dict) (qid qtitle : string) (log : list string),
    lower language <> "python" ->
    exists ev,
      execute host self code language tcs qid qtitle log = (Ok ev, log) /\
      length (test_cases ev) = length tcs /\
      total_tests ev = length tcs /\
      pass_rate ev = 0%Q /\
      Forall (fun r => actual r = non_python_sentinel language /\ actual r <> "BLOCKED" /\
                       passed r = false /\ time_ms r = 0%Q) (test_cases ev).
Proof.
  intros RT host self code language tcs qid qtitle log Hpy.
  unfold execute, non_python_sentinel.
  apply String.eqb_neq in Hpy; rewrite Hpy.
  destruct (String.eqb (lower language) "java") eqn:Hj;
    [| destruct (String.eqb (lower language) "cpp") eqn:Hc]; simpl;
    eexists; (split; [reflexivity|]); simpl;
    rewrite ?length_map; (split; [reflexivity|]); (split; [reflexivity|]);
    (split; [reflexivity|]);
    apply Forall_map_results; intros tc; simpl; repeat split; discriminate.
Qed.

(* ------------------------------------------------------------------ *)
(** ** The comparator *)

(** C6: whenever both values coerce with [float()] to equal numbers, the
    comparator passes the test; in particular ["55"] against [55]. *)
Theorem compare_outputs_float_equal :
  forall RT : PyRuntime,
    (forall (a e : pyval) (x y : Q),
        py_float a = Some x -> py_float e = Some y -> (x == y)%Q ->
        _compare_outputs a e = true) /\
    _compare_outputs (VStr "55") (VInt 55) = true.
Proof.
  intros RT; split.
  - intros a e x y Ha He Hxy; unfold _compare_outputs.
    destruct (py_eq a e); [reflexivity|].
    destruct (String.eqb _ _); [reflexivity|].
    rewrite Ha, He.
    apply Qeq_bool_iff in Hxy; rewrite Hxy; reflexivity.
  - reflexivity.
Qed.

(** C7 (what the comparator does for a boolean expected value): the
    equality, string and [float()] rules are tried first, so
    [_compare_outputs a (VBool b)] holds exactly when [a == b] in Python
    ([True == 1]), or the stripped [str(a)] is ["True"]/["False"], or
    [float(a)] is [1.0]/[0.0]; the boolean rule itself never passes. *)
Theorem compare_outputs_bool_expected :
  forall (RT : PyRuntime) (a : pyval) (b : bool),
    _compare_outputs a (VBool b) =
    py_eq a (VBool b) ||
    String.eqb (strip (py_str a)) (if b then "True" else "False") ||
    match py_float a with
    | Some x => Qeq_bool x (if b then 1%Q else 0%Q)
    | None => false
    end.
Proof.
  intros RT a b; unfold _compare_outputs.
  assert (Hs : strip (py_str (VBool b)) = if b then "True" else "False")
    by (destruct b; reflexivity).
  rewrite Hs.
  destruct (py_eq a (VBool b)) eqn:He; [reflexivity|].
  destruct (String.eqb _ _); [reflexivity|].
  simpl py_float.
  destruct (py_float a); simpl; [destruct (Qeq_bool _ _)|]; simpl; auto.
Qed.

(** C7 counterexample: against the boolean expected value [True], the
    string ["True"] and the integer [1], neither of them a boolean, pass. *)
Lemma compare_outputs_bool_non_bool_passes :
  _compare_outputs (RT := CPython_min) (VStr "True") (VBool true) = true /\
  _compare_outputs (RT := CPython_min) (VInt 1) (VBool true) = true /\
  py_eq (VStr "True") (VBool true) = false.
Proof. vm_compute. repeat split. Qed.

(* ------------------------------------------------------------------ *)
(** ** The security short-circuit *)

(** The reason [_check_security] reports for a source whose lower-cased
    text holds ["import subprocess"]: [os] is listed first. *)
Definition subprocess_reason (code : string) : string :=
  if existsb (fun pattern => contains pattern (lower code)) (import_patterns "os")
  then "Restricted module detected: os"
  else "Restricted module detected: subprocess".

Lemma check_security_subprocess (code : string) :
  contains "import subprocess" (lower code) = true ->
  _check_security CodeSandbox_default code = Some (subprocess_reason code).
Proof.
  intros H; unfold _check_security, subprocess_reason.
  cbn [BANNED_IMPORTS CodeSandbox_default first_some].
  destruct (existsb (fun pattern => contains pattern (lower code)) (import_patterns "os"));
    [reflexivity|].
  cbn [import_patterns existsb append]. rewrite H. reflexivity.
Qed.

(** C3 (as the code does it): for a Python submission whose lower-cased
    source holds ["import subprocess"], [execute] launches no process and
    resolves every test case to [BLOCKED], not passed, [time_ms = 0], the
    error being ["Restricted module detected: os"] when the source also has
    an [os] import shape and ["Restricted module detected: subprocess"]
    otherwise; the pass rate is 0. *)
Theorem execute_subprocess_blocked :
  forall (RT : PyRuntime) host (code language : string)
         (tcs : list test_case_dict) (qid qtitle : string) (log : list string),
    lower language = "python" ->
    contains "import subprocess" (lower code) = true ->
    exists ev,
      execute host CodeSandbox_default code language tcs qid qtitle log = (Ok ev, log) /\
      length (test_cases ev) = length tcs /\
      total_tests ev = length tcs /\
      pass_rate ev = 0%Q /\
      Forall (fun r => actual r = "BLOCKED" /\ passed r = false /\ time_ms r = 0%Q /\
                       error r = Some (subprocess_reason code)) (test_cases ev).
Proof.
  intros RT host code language tcs qid qtitle log Hl Hc.
  unfold execute; rewrite Hl; simpl String.eqb; cbv iota.
  unfold execute_python; rewrite (check_security_subprocess code Hc).
  eexists; split; [reflexivity|]; simpl.
  rewrite length_map; repeat (split; [reflexivity|]).
  apply Forall_map_results; intros tc; simpl; repeat split.
Qed.

(** C3 counterexample: the source ["import os\nimport subprocess"] is
    blocked with an error that does not mention [subprocess]. *)
Lemma execute_subprocess_blocked_reports_os :
  let code := "import os" ++ nl ++ "import subprocess" in
  let tcs := [[("input", VInt 1); ("expected", VInt 2)]] in
  contains "import subprocess" (lower code) = true /\
  exists ev,
    execute (RT := CPython_min) (fun _ _ => Expired) CodeSandbox_default code "python"
      tcs "q" "t" [] = (Ok ev, []) /\
    map error (test_cases ev) = [Some "Restricted module detected: os"] /\
    contains "subprocess" "Restricted module detected: os" = false.
Proof.
  vm_compute. split; [reflexivity|]. eexists; split; [reflexivity|]. split; reflexivity.
Qed.

(* ------------------------------------------------------------------ *)
(** ** The per-test runner *)

(** A test case as the spec's section 6 gives it: a dict with keys
    [input] and [expected]. *)
Definition well_formed (tc : test_case_dict) : Prop :=
  exists i x, dict_get tc "input" = Some i /\ dict_get tc "expected" = Some x.

(** The program launched for a test case. *)
Definition harness {RT : PyRuntime} (self : CodeSandbox) (code : string) (tc : test_case_dict) : string :=
  _build_test_wrapper self code (get_default tc "input" VNone).

(** What [_run_single_test_python] returns for a timed-out test. *)
Definition is_timeout_result (self : CodeSandbox) (RT : PyRuntime) (tc : test_case_dict)
  (r : TestCaseResult) : Prop :=
  actual r = "TIMEOUT" /\ passed r = false /\
  time_ms r = inject_Z (TIMEOUT_SECONDS self * 1000) /\
  input r = py_str (get_default tc "input" VNone) /\
  expected r = py_str (get_default tc "expected" VNone).

Lemma run_single_terminal (RT : PyRuntime) host self (code : string)
  (tc : test_case_dict) (log : list string) :
  well_formed tc ->
  exists r,
    _run_single_test_python host self code tc log = (Ok r, app log [harness self code tc]) /\
    (host (length log) (harness self code tc) = Expired -> is_timeout_result self RT tc r).
Proof.
  intros (i & x & Hi & Hx).
  unfold harness, get_default; rewrite Hi.
  unfold _run_single_test_python, parse_output, timeout_call, exception_call,
    bind, getitem, try_except, run_process, ret, raise.
  rewrite Hi, Hx.
  destruct (host (length log) (_build_test_wrapper self code i)) as [rc out err t| |m] eqn:Hh.
  - destruct (rc =? 0)%Z; [destruct (json_loads (strip out)) as [[]|]|];
      (eexists; split; [reflexivity | discriminate]).
  - eexists; split; [reflexivity|]; intros _.
    unfold is_timeout_result, get_default; rewrite Hi, Hx; simpl; repeat split.
  - eexists; split; [reflexivity | discriminate].
Qed.

(** The test loop of [execute_python] over well-formed test cases: one
    launch per test case, in order, and one terminal result per test case. *)
Lemma run_loop_terminal (RT : PyRuntime) host self (code : string) :
  forall (tcs : list test_case_dict) (log : list string),
    Forall well_formed tcs ->
    exists rs,
      mapM (_run_single_test_python host self code) tcs log =
        (Ok rs, app log (map (harness self code) tcs)) /\
      length rs = length tcs /\
      forall k tc, nth_error tcs k = Some tc ->
        host (length log + k) (harness self code tc) = Expired ->
        exists r, nth_error rs k = Some r /\ is_timeout_result self RT tc r.
Proof.
  induction tcs as [|tc tcs IH]; intros log Hwf.
  - exists []; split; [rewrite app_nil_r; reflexivity|]; split; [reflexivity|].
    intros k tc Hk; destruct k; discriminate.
  - inversion Hwf as [|? ? Htc Hrest]; subst.
    destruct (run_single_terminal RT host self code tc log Htc) as (r & Hr & Hto).
    destruct (IH (app log [harness self code tc]) Hrest) as (rs & Hrs & Hlen & Hk).
    exists (r :: rs); split.
    + simpl; unfold bind at 1; rewrite Hr; unfold bind; rewrite Hrs.
      unfold ret; rewrite <- app_assoc; reflexivity.
    + split; [simpl; lia|].
      intros [|k] tc' Hnth Hexp; simpl in Hnth.
      * injection Hnth as <-; exists r; split; [reflexivity|].
        apply Hto; rewrite Nat.add_0_r in Hexp; exact Hexp.
      * apply (Hk k tc' Hnth).
        rewrite length_app; simpl; rewrite <- Nat.add_assoc; exact Hexp.
Qed.

(** C9: with the default configuration the timeout is 10 seconds; for any
    configuration and well-formed test cases, a test whose process outlives
    the timeout yields [TIMEOUT], not passed, with
    [time_ms = TIMEOUT_SECONDS * 1000], and the loop launches each test case
    exactly once, in order, going on to the next test case after a timeout. *)
Theorem python_loop_timeout_results :
  TIMEOUT_SECONDS CodeSandbox_default = 10%Z /\
  forall (RT : PyRuntime) host self (code : string)
         (tcs : list test_case_dict) (log : list string),
    Forall well_formed tcs ->
    exists rs,
      mapM (_run_single_test_python host self code) tcs log =
        (Ok rs, app log (map (harness self code) tcs)) /\
      length rs = length tcs /\
      forall k tc, nth_error tcs k = Some tc ->
        host (length log + k) (harness self code tc) = Expired ->
        exists r, nth_error rs k = Some r /\
          actual r = "TIMEOUT" /\ passed r = false /\
          time_ms r = inject_Z (TIMEOUT_SECONDS self * 1000).
Proof.
  split; [reflexivity|].
  intros RT host self code tcs log Hwf.
  destruct (run_loop_terminal RT host self code tcs log Hwf) as (rs & Hrs & Hlen & Hk).
  exists rs; split; [exact Hrs|]; split; [exact Hlen|].
  intros k tc Hnth Hexp.
  destruct (Hk k tc Hnth Hexp) as (r & Hr & Ha & Hp & Ht & _).
  exists r; auto.
Qed.

(* ------------------------------------------------------------------ *)
(** ** The similarity score *)

(** The similarity of the spec's section 4.5, written from its words and
    evaluated in Python floats (each operation rounded to binary64): the
    normalized edit distance, raised to the applicable near-miss floor
    when both sides parse as numbers. *)
Definition spec_edit_score (sa se : string) : Q :=
  let a := list_ascii_of_string sa in
  let e := list_ascii_of_string se in
  let max_len := Nat.max (length a) (length e) in
  to_double (to_double (inject_Z (Z.of_nat max_len - Z.of_nat (levenshtein_distance a e))
                        / inject_Z (Z.of_nat max_len)) * 100).

(** The relative difference of [x] to a non-zero expected value [y]. *)
Definition spec_rel_diff (x y : Q) : option Q :=
  if Qeq_bool y 0 then None else Some (to_double (Qabs (to_double (x - y)) / Qabs y)).

Definition spec_floor (rd : Q) : option Q :=
  if Qltb rd (to_double (1 # 100)) then Some 95%Q
  else if Qltb rd (to_double (5 # 100)) then Some 75%Q
  else if Qltb rd (to_double (10 # 100)) then Some 50%Q
  else None.

(** [c * n]. *)
Fixpoint str_repeat (n : nat) (c : ascii) : string :=
  match n with
  | O => EmptyString
  | S n' => String c (str_repeat n' c)
  end.

Definition spec_similarity {RT : PyRuntime} (sa se : string) : Q :=
  let score := spec_edit_score sa se in
  match float_of_str sa, float_of_str se with
  | Some x, Some y =>
      match spec_rel_diff x y with
      | Some rd => match spec_floor rd with Some f => Qmax score f | None => score end
      | None => score
      end
  | _, _ => score
  end.

(** Lookup of a keyword argument of a constructor call. *)
Fixpoint kw_lookup (k : string) (kws : list (string * kwarg)) : option kwarg :=
  match kws with
  | [] => None
  | (k', v) :: kws' => if String.eqb k k' then Some v else kw_lookup k kws'
  end.

(** C5 (as the code does it): for trimmed string forms that are non-empty
    and unequal, the similarity is the spec's floored edit-distance score,
    computed in binary64 floats, rounded to one decimal
    ([round(similarity, 1)]); [actual = "104"] against [expected = "100"]
    gives a failed test whose computed [similarity_score] is at least 75
    and whose [partial_credit] is true; and ['a' * 80] against ['a' * 23]
    scores the double [28.7] (the float score is [28.749999999999996]). *)
Theorem calculate_similarity_rounded_spec :
  (forall (RT : PyRuntime) (a e : pyval),
      strip (py_str a) <> strip (py_str e) ->
      strip (py_str a) <> "" -> strip (py_str e) <> "" ->
      _calculate_similarity a e = round_float (spec_similarity (strip (py_str a)) (strip (py_str e))) 1) /\
  (let c := graded_call (RT := CPython_min) (VInt 1) (VStr "100") (VStr "104") 0%Q None in
   c_passed c = false /\
   (exists s, kw_lookup "similarity_score" (c_extra c) = Some (KwNum s) /\ (75 <= s)%Q) /\
   kw_lookup "partial_credit" (c_extra c) = Some (KwBool true)) /\
  _calculate_similarity (RT := CPython_min) (VStr (str_repeat 80 "a")) (VStr (str_repeat 23 "a"))
    = to_double (287 # 10).
Proof.
  split.
  - intros RT a e Hne Ha He.
    unfold _calculate_similarity, spec_similarity, spec_edit_score, near_miss,
      spec_rel_diff, spec_floor.
    apply String.eqb_neq in Hne; rewrite Hne.
    assert (Hla : (String.length (strip (py_str a)) =? 0) = false).
    { destruct (strip (py_str a)); [contradiction | reflexivity]. }
    assert (Hle : (String.length (strip (py_str e)) =? 0) = false).
    { destruct (strip (py_str e)); [contradiction | reflexivity]. }
    rewrite Hla, Hle; simpl orb; cbv iota.
    destruct (float_of_str (strip (py_str a))) as [x|];
      [destruct (float_of_str (strip (py_str e))) as [y|]|]; try reflexivity.
    destruct (Qeq_bool y 0); simpl negb; cbv iota; [reflexivity|].
    destruct (Qltb _ (to_double (1 # 100))); [reflexivity|].
    destruct (Qltb _ (to_double (5 # 100))); [reflexivity|].
    destruct (Qltb _ (to_double (10 # 100))); reflexivity.
  - split.
    + vm_compute. split; [reflexivity|]. split; [|reflexivity].
      eexists; split; [reflexivity|]. vm_compute; discriminate.
    + vm_compute; reflexivity.
Qed.

(** C5 counterexample: ["ab"] against ["abc"] has the float edit-distance
    score [66.66666666666667], but the code returns it rounded, [66.7]. *)
Lemma calculate_similarity_is_rounded :
  _calculate_similarity (RT := CPython_min) (VStr "ab") (VStr "abc") = to_double (667 # 10) /\
  ~ (_calculate_similarity (RT := CPython_min) (VStr "ab") (VStr "abc")
     == spec_similarity (RT := CPython_min) "ab" "abc")%Q.
Proof. vm_compute. split; [reflexivity | discriminate]. Qed.

(** Bounds of the edit-distance programme: entry [j] of row [i] is at
    most [max i j]. *)
Lemma lev_row_bound (c1 : ascii) :
  forall s2 prev cur_last i j0,
    length prev = S (length s2) ->
    (forall k, k <= length s2 -> nth k prev 0 <= Nat.max i (j0 + k)) ->
    cur_last <= Nat.max (S i) j0 ->
    length (lev_row c1 s2 prev cur_last) = length s2 /\
    forall k, k < length s2 ->
      nth k (lev_row c1 s2 prev cur_last) 0 <= Nat.max (S i) (S j0 + k).
Proof.
  induction s2 as [|c2 s2 IH]; intros prev cur_last i j0 Hlen Hprev Hcur.
  - split; [reflexivity | simpl; intros; lia].
  - destruct prev as [|pj [|pj1 rest]]; simpl in Hlen; try discriminate.
    cbn [lev_row].
    assert (Hpj : pj <= Nat.max i j0)
      by (specialize (Hprev 0); rewrite Nat.add_0_r in Hprev; apply Hprev; simpl; lia).
    set (v := Nat.min (Nat.min (pj1 + 1) (cur_last + 1))
                      (pj + (if Ascii.eqb c1 c2 then 0 else 1))).
    assert (Hv : v <= Nat.max (S i) (S j0))
      by (unfold v; destruct (Ascii.eqb c1 c2); lia).
    destruct (IH (pj1 :: rest) v i (S j0)) as [IHl IHn].
    + simpl; lia.
    + intros k Hk. replace (S j0 + k) with (j0 + S k) by lia.
      apply (Hprev (S k)); simpl; lia.
    + exact Hv.
    + split; [simpl; lia|].
      intros [|k] Hk; simpl.
      * lia.
      * simpl in Hk; specialize (IHn k ltac:(lia)); lia.
Qed.

Lemma lev_rows_bound :
  forall s1 i s2 row,
    length row = S (length s2) ->
    (forall k, k <= length s2 -> nth k row 0 <= Nat.max i k) ->
    length (lev_rows s1 i s2 row) = S (length s2) /\
    forall k, k <= length s2 -> nth k (lev_rows s1 i s2 row) 0 <= Nat.max (i + length s1) k.
Proof.
  induction s1 as [|c1 s1 IH]; intros i s2 row Hlen Hrow.
  - simpl; rewrite Nat.add_0_r; auto.
  - simpl.
    destruct (lev_row_bound c1 s2 row (S i) i 0 Hlen Hrow ltac:(lia)) as [Hl Hn].
    destruct (IH (S i) s2 (S i :: lev_row c1 s2 row (S i))) as [IHl IHn].
    + simpl; lia.
    + intros [|k] Hk; simpl; [lia|].
      apply Hn; lia.
    + split; [exact IHl|]. intros k Hk.
      replace (i + S (length s1)) with (S i + length s1) by lia. auto.
Qed.

Lemma last_nth_len {A} (l : list A) (d : A) (m : nat) :
  length l = S m -> last l d = nth m l d.
Proof.
  revert m; induction l as [|x l IH]; intros m Hl; [discriminate|].
  destruct l as [|y l]; simpl in Hl.
  - injection Hl as <-; reflexivity.
  - destruct m as [|m]; [discriminate|].
    change (last (y :: l) d = nth m (y :: l) d). apply IH; simpl in *; lia.
Qed.

Lemma lev_core_bound (s1 s2 : list ascii) :
  lev_core s1 s2 <= Nat.max (length s1) (length s2).
Proof.
  unfold lev_core.
  destruct (length s2 =? 0) eqn:H0; [lia|].
  destruct (lev_rows_bound s1 0 s2 (seq 0 (length s2 + 1))) as [Hl Hn].
  - rewrite length_seq; lia.
  - intros k Hk; rewrite seq_nth by lia; lia.
  - rewrite (last_nth_len _ 0 (length s2) Hl).
    specialize (Hn (length s2) (le_n _)); simpl in Hn; lia.
Qed.

Lemma levenshtein_distance_bound (s1 s2 : list ascii) :
  levenshtein_distance s1 s2 <= Nat.max (length s1) (length s2).
Proof.
  unfold levenshtein_distance.
  destruct (length s1 <? length s2).
  - pose proof (lev_core_bound s2 s1); lia.
  - apply lev_core_bound.
Qed.

(** Facts of binary64 rounding. *)

(** Binary64 rounding depends on the value only. *)
Lemma to_double_comp (x y : Q) : (x == y)%Q -> to_double x = to_double y.
Proof. intros H. unfold to_double. rewrite (Qred_complete x y H). reflexivity. Qed.

Lemma rhe_bounds (N C D : Z) :
  (0 < D)%Z -> (0 <= N)%Z -> (N <= C * D)%Z -> (0 <= rhe N D <= C)%Z.
Proof.
  intros HD HN HC. unfold rhe.
  pose proof (Z.div_mod N D ltac:(lia)) as Hdm.
  pose proof (Z.mod_pos_bound N D HD) as Hr.
  assert (Hf0 : (0 <= N / D)%Z) by (apply Z.div_pos; lia).
  assert (Hf1 : (N / D <= C)%Z) by (apply Z.div_le_upper_bound; lia).
  set (f := (N / D)%Z) in *. set (r := (N mod D)%Z) in *.
  assert (Hfc : f = C -> r = 0%Z) by (intros Hf; subst f; nia).
  destruct (2 * r <? D)%Z eqn:E1; [lia|].
  apply Z.ltb_ge in E1.
  assert (Hlt : (f < C)%Z).
  { destruct (Z.eq_dec f C) as [Heq|]; [specialize (Hfc Heq); lia | lia]. }
  destruct (D <? 2 * r)%Z; [lia|]. destruct (Z.even f); lia.
Qed.

Lemma rhe_1 (N : Z) : rhe N 1 = N.
Proof. unfold rhe. rewrite Z.div_1_r, Z.mod_1_r. reflexivity. Qed.

Lemma float_exponent_le (a d : Z) :
  (0 < a)%Z -> (0 < d)%Z -> (a < d * 2 ^ 53)%Z -> (float_exponent a d <= 52)%Z.
Proof.
  intros Ha Hd Hlt. unfold float_exponent.
  destruct (Z.log2_spec a Ha) as [Ha1 Ha2].
  destruct (Z.log2_spec d Hd) as [Hd1 Hd2].
  pose proof (Z.log2_nonneg a). pose proof (Z.log2_nonneg d).
  set (la := Z.log2 a) in *. set (ld := Z.log2 d) in *.
  rewrite Z.pow_succ_r in Hd2 by lia.
  assert (Hk : (la - ld <= 53)%Z).
  { assert (H2 : (2 ^ la < 2 ^ (ld + 54))%Z).
    { rewrite Z.pow_add_r by lia. 
      change (2 ^ 54)%Z with (2 * 2 ^ 53)%Z. nia. }
    rewrite <- Z.pow_lt_mono_r_iff in H2 by lia; lia. }
  destruct (0 <=? la - ld)%Z eqn:Hk0.
  - destruct (d * 2 ^ (la - ld) <=? a)%Z eqn:Hb; [|lia].
    apply Z.leb_le in Hb. apply Z.leb_le in Hk0.
    assert (H2 : (2 ^ (la - ld) < 2 ^ 53)%Z) by nia.
    rewrite <- Z.pow_lt_mono_r_iff in H2 by lia; lia.
  - destruct (d <=? a * 2 ^ (- (la - ld)))%Z; lia.
Qed.

(** A value in [[0, c]], for an integer [c < 2^53], rounds into [[0, c]]. *)
Lemma to_double_range (q : Q) (c : Z) :
  (0 <= q)%Q -> (q <= inject_Z c)%Q -> (c < 2 ^ 53)%Z ->
  (0 <= to_double q)%Q /\ (to_double q <= inject_Z c)%Q.
Proof.
  intros H0 H1 Hc.
  assert (Hc0 : (0 <= c)%Z) by (rewrite Zle_Qle; change (inject_Z 0) with 0%Q; lra).
  rewrite <- (Qred_correct q) in H0, H1.
  unfold to_double; cbv zeta.
  destruct (Qred q) as [n d]; cbn [Qnum Qden] in *.
  unfold Qle in H0, H1; cbn [Qnum Qden inject_Z] in H0, H1.
  destruct (n =? 0)%Z eqn:Hn.
  - split; [lra|]. change 0%Q with (inject_Z 0). rewrite <- Zle_Qle. exact Hc0.
  - apply Z.eqb_neq in Hn.
    assert (Hnp : (0 < n)%Z) by lia.
    rewrite (Z.abs_eq n) by lia. rewrite (Z.sgn_pos n Hnp).
    assert (HE : (float_exponent n (Z.pos d) <= 52)%Z)
      by (apply float_exponent_le; nia).
    set (e := Z.max (float_exponent n (Z.pos d) - 52) (-1074)).
    assert (He : (e <=? 0)%Z = true) by (apply Z.leb_le; unfold e; lia).
    rewrite He.
    assert (Hp : (0 < 2 ^ (- e))%Z) by (apply Z.pow_pos_nonneg; unfold e; lia).
    set (p := (2 ^ (- e))%Z) in *.
    destruct (rhe_bounds (n * p) (c * p) (Z.pos d)) as [Hm0 Hm1]; [lia|nia|nia|].
    rewrite Qred_correct. unfold Qle; cbn [Qnum Qden inject_Z]. rewrite Z2Pos.id by exact Hp.
    split; nia.
Qed.

Lemma rhe_mul (k D : Z) : (0 < D)%Z -> rhe (k * D) D = k.
Proof.
  intros HD. unfold rhe. rewrite Z.div_mul, Z.mod_mul by lia.
  replace (2 * 0)%Z with 0%Z by reflexivity.
  rewrite (proj2 (Z.ltb_lt 0 D) HD). reflexivity.
Qed.

(** An integer of magnitude below [2^53] is a double. *)
Lemma to_double_Z (z : Z) : (Z.abs z < 2 ^ 53)%Z -> (to_double (inject_Z z) == inject_Z z)%Q.
Proof.
  intros Hz. pose proof (Qred_correct (inject_Z z)) as Hq.
  unfold to_double; cbv zeta.
  destruct (Qred (inject_Z z)) as [n d]; cbn [Qnum Qden].
  unfold Qeq in Hq; cbn [Qnum Qden inject_Z] in Hq.
  replace n with (z * Z.pos d)%Z by lia.
  destruct (z * Z.pos d =? 0)%Z eqn:H0.
  - apply Z.eqb_eq in H0.
    assert (z = 0%Z) by nia. subst; reflexivity.
  - apply Z.eqb_neq in H0.
    rewrite Z.abs_mul, Z.sgn_mul. change (Z.abs (Z.pos d)) with (Z.pos d).
    change (Z.sgn (Z.pos d)) with 1%Z.
    assert (HE : (float_exponent (Z.abs z * Z.pos d) (Z.pos d) <= 52)%Z)
      by (apply float_exponent_le; nia).
    set (e := Z.max (float_exponent (Z.abs z * Z.pos d) (Z.pos d) - 52) (-1074)).
    assert (He : (e <=? 0)%Z = true) by (apply Z.leb_le; unfold e; lia).
    rewrite He.
    assert (Hp : (0 < 2 ^ (- e))%Z) by (apply Z.pow_pos_nonneg; unfold e; lia).
    set (p := (2 ^ (- e))%Z) in *.
    replace (Z.abs z * Z.pos d * p)%Z with (Z.abs z * p * Z.pos d)%Z by ring.
    rewrite rhe_mul by lia.
    rewrite Qred_correct. unfold Qeq; cbn [Qnum Qden inject_Z]. rewrite Z2Pos.id by exact Hp.
    destruct z; simpl Z.sgn; simpl Z.abs; lia.
Qed.

Lemma Qltb_comp (a a' b b' : Q) : (a == a')%Q -> (b == b')%Q -> Qltb a b = Qltb a' b'.
Proof.
  intros Ha Hb. unfold Qltb.
  destruct (Qle_bool b a) eqn:E1, (Qle_bool b' a') eqn:E2; try reflexivity;
    apply Qle_bool_iff in E1 || apply Qle_bool_iff in E2;
    [ assert (H : (b' <= a')%Q) by (rewrite <- Ha, <- Hb; exact E1)
    | assert (H : (b <= a)%Q) by (rewrite Ha, Hb; exact E2) ];
    apply Qle_bool_iff in H; congruence.
Qed.

(** [round(x, n)] depends on the value of [x] only. *)
Lemma py_round_comp (x y : Q) (n : nat) : (x == y)%Q -> py_round x n = py_round y n.
Proof.
  intros H. unfold py_round; cbv zeta.
  assert (Hs : (x * inject_Z (10 ^ Z.of_nat n) == y * inject_Z (10 ^ Z.of_nat n))%Q)
    by (rewrite H; reflexivity).
  rewrite (Qfloor_comp _ _ Hs).
  set (f := Qfloor (y * inject_Z (10 ^ Z.of_nat n))).
  assert (Hr : (x * inject_Z (10 ^ Z.of_nat n) - inject_Z f ==
                y * inject_Z (10 ^ Z.of_nat n) - inject_Z f)%Q) by (rewrite Hs; reflexivity).
  rewrite (Qltb_comp _ _ (1 # 2) (1 # 2) Hr (Qeq_refl _)).
  rewrite (Qltb_comp (1 # 2) (1 # 2) _ _ (Qeq_refl _) Hr).
  reflexivity.
Qed.

Lemma py_round_1_bounds (x : Q) : (0 <= x <= 100)%Q -> (0 <= py_round x 1 <= 100)%Q.
Proof.
  intros [H0 H1]. unfold py_round.
  change (inject_Z (10 ^ Z.of_nat 1)) with (10 # 1).
  set (y := (x * (10 # 1))%Q).
  assert (Hy0 : (0 <= y)%Q) by (unfold y; lra).
  assert (Hy1 : (y <= 1000)%Q) by (unfold y; lra).
  pose proof (Qfloor_le y) as Hfl.
  assert (Hf0 : (0 <= Qfloor y)%Z).
  { rewrite <- (Qfloor_Z 0). apply Qfloor_resp_le. exact Hy0. }
  assert (Hf1 : (Qfloor y <= 1000)%Z).
  { rewrite <- (Qfloor_Z 1000). apply Qfloor_resp_le. exact Hy1. }
  set (f := Qfloor y) in *.
  assert (Hup : Qltb (y - inject_Z f) (1 # 2) = false -> (f + 1 <= 1000)%Z).
  { unfold Qltb; intros Hb. apply negb_false_iff, Qle_bool_iff in Hb.
    assert (Hlt : (f < 1000)%Z) by (rewrite Zlt_Qlt; change (inject_Z 1000) with (1000 # 1); lra).
    lia. }
  assert (Hk : (0 <= (if Qltb (y - inject_Z f) (1 # 2) then f
                      else if Qltb (1 # 2) (y - inject_Z f) then (f + 1)%Z
                      else if Z.even f then f else (f + 1)%Z) <= 1000)%Z).
  { destruct (Qltb (y - inject_Z f) (1 # 2)) eqn:Hb1; [lia|].
    specialize (Hup eq_refl).
    destruct (Qltb (1 # 2) _); [lia|]. destruct (Z.even f); lia. }
  set (k := if Qltb (y - inject_Z f) (1 # 2) then f else _) in *.
  destruct Hk as [Hk0 Hk1].
  rewrite Zle_Qle in Hk0, Hk1.
  change (inject_Z 0) with (0 # 1) in Hk0. change (inject_Z 1000) with (1000 # 1) in Hk1.
  split.
  - apply Qle_shift_div_l; [reflexivity|]. lra.
  - apply Qle_shift_div_r; [reflexivity|]. lra.
Qed.

Lemma near_miss_bounds {RT : PyRuntime} (s : Q) (sa se : string) :
  (0 <= s <= 100)%Q -> (0 <= near_miss s sa se <= 100)%Q.
Proof.
  intros Hs. unfold near_miss.
  assert (Hm : forall c : Q, (0 <= c <= 100)%Q -> (0 <= Qmax s c <= 100)%Q).
  { intros c Hc; split.
    - eapply Qle_trans; [apply (proj1 Hs) | apply Q.le_max_l].
    - apply Q.max_lub; tauto. }
  destruct (float_of_str sa); [destruct (float_of_str se)|]; auto.
  destruct (negb _); auto.
  destruct (Qltb _ (to_double (1 # 100))); [apply Hm; lra|].
  destruct (Qltb _ (to_double (5 # 100))); [apply Hm; lra|].
  destruct (Qltb _ (to_double (10 # 100))); [apply Hm; lra|].
  exact Hs.
Qed.

Lemma list_ascii_length (s : string) : length (list_ascii_of_string s) = String.length s.
Proof. induction s; simpl; congruence. Qed.

Lemma calculate_similarity_bounds {RT : PyRuntime} (a e : pyval) :
  (0 <= _calculate_similarity a e <= 100)%Q.
Proof.
  unfold _calculate_similarity.
  destruct (String.eqb _ _); [lra|].
  destruct (_ || _) eqn:Hemp; [lra|].
  apply orb_false_iff in Hemp as [Ha He].
  unfold round_float.
  match goal with |- context [near_miss ?s _ _] => assert (Hs : (0 <= s <= 100)%Q) end.
  {
  set (la := list_ascii_of_string (strip (py_str a))).
  set (le := list_ascii_of_string (strip (py_str e))).
  pose proof (levenshtein_distance_bound la le) as Hd.
  assert (Hpos : 0 < Nat.max (length la) (length le)).
  { unfold la; rewrite list_ascii_length.
    apply Nat.eqb_neq in Ha; lia. }
  set (m := Nat.max (length la) (length le)) in *.
  set (d := levenshtein_distance la le) in *.
  assert (H0 : (0 <= inject_Z (Z.of_nat m - Z.of_nat d))%Q)
    by (change 0%Q with (inject_Z 0); rewrite <- Zle_Qle; lia).
  assert (H1 : (inject_Z (Z.of_nat m - Z.of_nat d) <= inject_Z (Z.of_nat m))%Q)
    by (rewrite <- Zle_Qle; lia).
  assert (Hm : (0 < inject_Z (Z.of_nat m))%Q)
    by (change 0%Q with (inject_Z 0); rewrite <- Zlt_Qlt; lia).
  set (num := inject_Z (Z.of_nat m - Z.of_nat d)) in *.
  set (den := inject_Z (Z.of_nat m)) in *.
  assert (Hq0 : (0 <= num / den)%Q) by (apply Qle_shift_div_l; lra).
  assert (Hq1 : (num / den <= 1)%Q) by (apply Qle_shift_div_r; lra).
  destruct (to_double_range (num / den) 1) as [Ht0 Ht1]; [lra | exact Hq1 | lia |].
  change (inject_Z 1) with 1%Q in Ht1.
  apply to_double_range; [lra | change (inject_Z 100) with 100%Q; lra | lia]. }
  pose proof (py_round_1_bounds _ (near_miss_bounds _ (strip (py_str a)) (strip (py_str e)) Hs))
    as Hp.
  apply to_double_range; [apply Hp | apply Hp | lia].
Qed.

(* ------------------------------------------------------------------ *)
(** ** The similarity and partial-credit values of a test *)

(** C8 (as the code does it): for a test whose process completed, the
    [TestCaseResult(...)] call of [_run_single_test_python] passes a
    [similarity_score] between 0 and 100 (100 when the test passes, the
    similarity otherwise) and [partial_credit = not passed and
    similarity_score >= 50]; the TIMEOUT and EXECUTION_ERROR results are
    built without either value. *)
Theorem graded_call_partial_credit_fields :
  (forall (RT : PyRuntime) (test_input expected actual_output : pyval)
          (execution_time : Q) (err : option string),
     let c := graded_call test_input expected actual_output execution_time err in
     c_passed c = _compare_outputs actual_output expected /\
     exists s,
       kw_lookup "similarity_score" (c_extra c) = Some (KwNum s) /\
       (0 <= s <= 100)%Q /\
       s = (if c_passed c then 100%Q else _calculate_similarity actual_output expected) /\
       kw_lookup "partial_credit" (c_extra c) =
         Some (KwBool (negb (c_passed c) && Qle_bool 50 s))) /\
  (forall (RT : PyRuntime) self (tc : test_case_dict) (msg : string)
          (log log' : list string) (c : TestCaseResult_call),
     (timeout_call self tc log = (Ok c, log') \/ exception_call tc msg log = (Ok c, log')) ->
     c_extra c = []).
Proof.
  split.
  - intros RT test_input expected0 actual_output execution_time err c.
    split; [reflexivity|].
    exists (if _compare_outputs actual_output expected0 then 100%Q
            else _calculate_similarity actual_output expected0).
    unfold c, graded_call; cbn [c_extra c_passed kw_lookup String.eqb Ascii.eqb Bool.eqb].
    split; [reflexivity|].
    split; [destruct (_compare_outputs _ _); [lra | apply calculate_similarity_bounds]|].
    split; reflexivity.
  - intros RT self tc msg log log' c [H|H].
    + unfold timeout_call, bind, getitem, ret, raise in H.
      destruct (dict_get tc "input"); [|discriminate].
      destruct (dict_get tc "expected"); [|discriminate].
      injection H as <- _; reflexivity.
    + unfold exception_call, bind, getitem, ret, raise in H.
      destruct (dict_get tc "input"); [|discriminate].
      destruct (dict_get tc "expected"); [|discriminate].
      injection H as <- _; reflexivity.
Qed.

(** C8 counterexample: a passing test is given [similarity_score = 100],
    a timed-out test (not a pass) is given no [similarity_score]; and no
    [TestCaseResult] has a [similarity_score] attribute. *)
Lemma similarity_score_presence_differs :
  let c := graded_call (RT := CPython_min) (VInt 1) (VInt 2) (VInt 2) 0%Q None in
  let tc := [("input", VInt 1); ("expected", VInt 2)] in
  c_passed c = true /\
  kw_lookup "similarity_score" (c_extra c) = Some (KwNum 100) /\
  (exists t, timeout_call (RT := CPython_min) CodeSandbox_default tc [] = (Ok t, []) /\
             c_passed t = false /\ kw_lookup "similarity_score" (c_extra t) = None /\
             fst (getattr (TestCaseResult_new t) "similarity_score" []) =
               Raise (PyException "AttributeError"
                        "'TestCaseResult' object has no attribute 'similarity_score'")).
Proof.
  vm_compute. split; [reflexivity|]. split; [reflexivity|].
  eexists; split; [reflexivity|]. repeat split.
Qed.

(* ------------------------------------------------------------------ *)
(** ** The aggregation of [execute_python] *)

Definition no_partial_credit : PyExc :=
  PyException "AttributeError" "'TestCaseResult' object has no attribute 'partial_credit'".

(** C4: the statistics loop raises [AttributeError] ([r.partial_credit] is
    not a field of [TestCaseResult]) as soon as one result is not a pass,
    so no pass rate is computed for such a list of results. *)
Theorem accumulate_score_failing_raises :
  forall (rs : list TestCaseResult) (total : Q) (log : list string),
    existsb (fun r => negb (passed r)) rs = true ->
    accumulate_score rs total log = (Raise no_partial_credit, log).
Proof.
  induction rs as [|r rs IH]; intros total log H; [discriminate|].
  simpl in H |- *.
  destruct (passed r); simpl in H.
  - apply IH; exact H.
  - reflexivity.
Qed.

Lemma accumulate_score_raises_helper (rs : list TestCaseResult) (total : Q) (log : list string) :
  existsb (fun r => negb (passed r)) rs = true ->
  accumulate_score rs total log = (Raise no_partial_credit, log).
Proof.
  revert total log; induction rs as [|r rs IH]; intros total log H; [discriminate|].
  simpl in H |- *. destruct (passed r); simpl in H; [apply IH; exact H | reflexivity].
Qed.

(** C2: for a Python submission that passes the screen and well-formed
    test cases, every per-test outcome (completed, crashed, timed out or
    failed to launch) becomes a terminal result, but as soon as one of
    them is not a pass [execute] raises [AttributeError] to the caller
    instead of returning evidence. *)
Theorem execute_python_failure_escapes :
  forall (RT : PyRuntime) host self (code language : string)
         (tcs : list test_case_dict) (qid qtitle : string) (log : list string),
    lower language = "python" ->
    _check_security self code = None ->
    Forall well_formed tcs ->
    exists rs,
      mapM (_run_single_test_python host self code) tcs log =
        (Ok rs, app log (map (harness self code) tcs)) /\
      length rs = length tcs /\
      (existsb (fun r => negb (passed r)) rs = true ->
       fst (execute host self code language tcs qid qtitle log) = Raise no_partial_credit).
Proof.
  intros RT host self code language tcs qid qtitle log Hl Hs Hwf.
  destruct (run_loop_terminal RT host self code tcs log Hwf) as (rs & Hrs & Hlen & _).
  exists rs; split; [exact Hrs|]; split; [exact Hlen|].
  intros Hfail.
  unfold execute; rewrite Hl, String.eqb_refl.
  unfold execute_python; rewrite Hs.
  unfold bind at 1; rewrite Hrs.
  unfold bind at 1; rewrite (accumulate_score_raises_helper rs 0%Q _ Hfail).
  reflexivity.
Qed.

(** The JSON line [{"result": n}] the harness prints. *)
Definition result_line (n : string) : string := "{" ++ dq ++ "result" ++ dq ++ ": " ++ n ++ "}".

(** C1: a Python submission whose single test fails (it returns 2 where
    3 is expected) gets no evidence record: [execute] raises
    [AttributeError]. *)
Theorem execute_python_wrong_answer_raises :
  fst (execute (RT := CPython_min) (fun _ _ => Exited 0 (result_line "2") "" 5%Q)
         CodeSandbox_default ("def solution(x):" ++ nl ++ "    return x + 1") "python"
         [[("input", VInt 1); ("expected", VInt 3)]] "q1" "Add one" []) =
  Raise no_partial_credit.
Proof. vm_compute. reflexivity. Qed.

(** The near-miss submission: it returns [104] where [100] is expected,
    which the spec would grade [pass_rate = 75.0]; [execute] raises. *)
Lemma execute_python_near_miss_raises :
  fst (execute (RT := CPython_min) (fun _ _ => Exited 0 (result_line "104") "" 12%Q)
         CodeSandbox_default ("def solution(x):" ++ nl ++ "    return 104") "python"
         [[("input", VInt 1); ("expected", VInt 100)]] "q1" "Hundred" []) =
  Raise no_partial_credit /\
  (let c := graded_call (RT := CPython_min) (VInt 1) (VInt 100) (VInt 104) 12%Q None in
   kw_lookup "similarity_score" (c_extra c) = Some (KwNum 75) /\
   kw_lookup "partial_credit" (c_extra c) = Some (KwBool true)).
Proof. vm_compute. split; [reflexivity|]. split; reflexivity. Qed.

(* ------------------------------------------------------------------ *)
(** ** Witnesses *)

Definition sample_tests : list test_case_dict :=
  [[("input", VInt 1); ("expected", VInt 2)];
   [("input", VStr "ab"); ("expected", VStr "ba")]].

Definition timeout_first_host : nat -> string -> ProcOutcome :=
  fun k _ => if k =? 0 then Expired else Exited 0 (result_line "2") "" 3%Q.

Lemma execute_non_python_unscreened_witness :
  lower "Java" <> "python" /\
  exists ev,
    execute (RT := CPython_min) timeout_first_host CodeSandbox_default
      "import subprocess" "Java" sample_tests "q" "t" [] = (Ok ev, []) /\
    length (test_cases ev) = 2.
Proof.
  assert (H : lower "Java" <> "python") by (apply String.eqb_neq; reflexivity).
  split; [exact H|].
  destruct (execute_non_python_unscreened CPython_min timeout_first_host CodeSandbox_default
              "import subprocess" "Java" sample_tests "q" "t" [] H) as (ev & He & Hl & _).
  exists ev; split; assumption.
Defined.

Lemma compare_outputs_float_equal_witness :
  _compare_outputs (RT := CPython_min) (VStr "2.50") (VFloat (5 # 2)) = true.
Proof.
  eapply (proj1 (compare_outputs_float_equal CPython_min) (VStr "2.50") (VFloat (5 # 2))).
  - reflexivity.
  - reflexivity.
  - vm_compute; reflexivity.
Defined.

Lemma execute_subprocess_blocked_witness :
  lower "Python" = "python" /\
  contains "import subprocess" (lower "IMPORT subprocess") = true /\
  exists ev,
    execute (RT := CPython_min) timeout_first_host CodeSandbox_default
      "IMPORT subprocess" "Python" sample_tests "q" "t" [] = (Ok ev, []) /\
    pass_rate ev = 0%Q.
Proof.
  assert (H1 : lower "Python" = "python") by reflexivity.
  assert (H2 : contains "import subprocess" (lower "IMPORT subprocess") = true) by reflexivity.
  split; [exact H1|]; split; [exact H2|].
  destruct (execute_subprocess_blocked CPython_min timeout_first_host "IMPORT subprocess"
              "Python" sample_tests "q" "t" [] H1 H2) as (ev & He & _ & _ & Hp & _).
  exists ev; split; assumption.
Defined.

Lemma sample_tests_well_formed : Forall well_formed sample_tests.
Proof.
  repeat constructor; do 2 eexists; split; reflexivity.
Qed.

Lemma python_loop_timeout_results_witness :
  Forall well_formed sample_tests /\
  exists rs,
    mapM (_run_single_test_python (RT := CPython_min) timeout_first_host CodeSandbox_default
            "def solution(x):") sample_tests [] =
      (Ok rs, map (harness (RT := CPython_min) CodeSandbox_default "def solution(x):") sample_tests) /\
    length rs = 2.
Proof.
  split; [exact sample_tests_well_formed|].
  destruct (proj2 python_loop_timeout_results CPython_min timeout_first_host CodeSandbox_default
              "def solution(x):" sample_tests [] sample_tests_well_formed) as (rs & Hm & Hl & _).
  exists rs; split; [exact Hm | exact Hl].
Defined.

Lemma calculate_similarity_rounded_spec_witness :
  _calculate_similarity (RT := CPython_min) (VStr "abc") (VStr "abd") =
  round_float (spec_similarity (RT := CPython_min) "abc" "abd") 1.
Proof.
  apply (proj1 calculate_similarity_rounded_spec CPython_min (VStr "abc") (VStr "abd"));
    vm_compute; discriminate.
Defined.

Lemma graded_call_partial_credit_fields_witness :
  exists c,
    timeout_call (RT := CPython_min) CodeSandbox_default
      [("input", VInt 1); ("expected", VInt 2)] [] = (Ok c, []) /\
    c_extra c = [].
Proof.
  eexists; split; [reflexivity|].
  apply (proj2 graded_call_partial_credit_fields CPython_min CodeSandbox_default
           [("input", VInt 1); ("expected", VInt 2)] "" [] []).
  left; reflexivity.
Defined.

Definition sample_failed_result : TestCaseResult :=
  {| input := "1"; expected := "2"; actual := "TIMEOUT"; passed := false;
     time_ms := 10000%Q; error := Some "Execution exceeded 10s time limit" |}.

Lemma accumulate_score_failing_raises_witness :
  accumulate_score [sample_failed_result] 0%Q [] = (Raise no_partial_credit, []).
Proof.
  apply accumulate_score_failing_raises; reflexivity.
Defined.

Definition launch_failure_host : nat -> string -> ProcOutcome :=
  fun _ _ => LaunchFailed "[Errno 2] No such file or directory: 'python'".

Lemma execute_python_failure_escapes_witness :
  exists rs,
    mapM (_run_single_test_python (RT := CPython_min) launch_failure_host CodeSandbox_default
            "def solution(x):") sample_tests [] =
      (Ok rs, map (harness (RT := CPython_min) CodeSandbox_default "def solution(x):") sample_tests) /\
    (existsb (fun r => negb (passed r)) rs = true ->
     fst (execute (RT := CPython_min) launch_failure_host CodeSandbox_default
            "def solution(x):" "python" sample_tests "q" "t" []) = Raise no_partial_credit).
Proof.
  destruct (execute_python_failure_escapes CPython_min launch_failure_host CodeSandbox_default
              "def solution(x):" "python" sample_tests "q" "t" []
              eq_refl ltac:(vm_compute; reflexivity) sample_tests_well_formed)
    as (rs & Hm & _ & Hf).
  exists rs; split; [exact Hm | exact Hf].
Defined.

(* ================================================================== *)
(** * Further properties of the sandbox *)

(* ------------------------------------------------------------------ *)
(** ** Strings *)

Lemma lower_char_idem (c : ascii) : lower_char (lower_char c) = lower_char c.
Proof.
  unfold lower_char.
  destruct ((65 <=? nat_of_ascii c) && (nat_of_ascii c <=? 90)) eqn:H; [|rewrite H; reflexivity].
  apply andb_true_iff in H as [H1 H2]; apply Nat.leb_le in H1, H2.
  rewrite nat_ascii_embedding by lia.
  replace ((65 <=? nat_of_ascii c + 32) && (nat_of_ascii c + 32 <=? 90)) with false; [reflexivity|].
  symmetry; apply andb_false_iff; right; apply Nat.leb_gt; lia.
Qed.

Lemma lower_idem (s : string) : lower (lower s) = lower s.
Proof. induction s as [|c s IH]; simpl; [reflexivity|]. rewrite lower_char_idem, IH; reflexivity. Qed.

Lemma lower_app (a b : string) : lower (a ++ b) = lower a ++ lower b.
Proof. induction a as [|c a IH]; simpl; [reflexivity|]. rewrite IH; reflexivity. Qed.

Lemma str_app_assoc (a b c : string) : a ++ (b ++ c) = (a ++ b) ++ c.
Proof. induction a as [|x a IH]; simpl; [reflexivity|]. rewrite IH; reflexivity. Qed.

Lemma prefixb_app (p q : string) : prefixb p (p ++ q) = true.
Proof. induction p as [|c p IH]; simpl; [destruct q; reflexivity|]. rewrite Ascii.eqb_refl, IH; reflexivity. Qed.

Lemma prefixb_true (p s : string) : prefixb p s = true -> exists q, s = p ++ q.
Proof.
  revert s; induction p as [|c p IH]; intros s H; [exists s; reflexivity|].
  destruct s as [|d s]; [discriminate|].
  simpl in H; apply andb_true_iff in H as [Hc Hp].
  apply Ascii.eqb_eq in Hc; subst d.
  destruct (IH s Hp) as [q ->]; exists q; reflexivity.
Qed.

Lemma contains_spec (p s : string) :
  contains p s = true <-> exists pre post, s = pre ++ p ++ post.
Proof.
  split.
  - induction s as [|c s IH]; intros H.
    + simpl in H; rewrite orb_false_r in H.
      destruct (prefixb_true p "" H) as [q Hq].
      exists "", q; exact Hq.
    + simpl in H; apply orb_true_iff in H as [H|H].
      * destruct (prefixb_true p _ H) as [q Hq]; exists "", q; exact Hq.
      * destruct (IH H) as (pre & post & ->). exists (String c pre), post; reflexivity.
  - intros (pre & post & ->).
    induction pre as [|c pre IH]; simpl.
    + destruct p; simpl; [destruct post; reflexivity|].
      rewrite Ascii.eqb_refl, prefixb_app; reflexivity.
    + rewrite IH, orb_true_r; reflexivity.
Qed.

Lemma contains_extend (p s a b : string) :
  contains p s = true -> contains p (a ++ s ++ b) = true.
Proof.
  rewrite !contains_spec; intros (pre & post & ->).
  exists (a ++ pre), (post ++ b).
  rewrite !str_app_assoc; reflexivity.
Qed.

Lemma first_some_None {A} (f : A -> option string) (l : list A) :
  first_some f l = None <-> forall x, In x l -> f x = None.
Proof.
  induction l as [|x l IH]; simpl.
  - split; [intros _ x []|reflexivity].
  - destruct (f x) eqn:Hx; split.
    + discriminate.
    + intros H; rewrite (H x (or_introl eq_refl)) in Hx; discriminate.
    + intros H y [<-|Hy]; [exact Hx | apply IH; assumption].
    + intros H; apply IH; intros y Hy; apply H; right; exact Hy.
Qed.

(* ------------------------------------------------------------------ *)
(** ** The security screen *)

(** The set of patterns the screen looks for, in the lower-cased source. *)
Definition screen_clean (self : CodeSandbox) (code_lower : string) : Prop :=
  (forall banned pattern, In banned (BANNED_IMPORTS self) ->
     In pattern (import_patterns banned) -> contains pattern code_lower = false) /\
  (forall call, In call dangerous_calls -> contains call code_lower = false).

(** The screen is case-insensitive: a source and its lower-cased form get
    the same verdict and the same message. *)
Theorem check_security_case_insensitive :
  forall self (code : string),
    _check_security self (lower code) = _check_security self code.
Proof. intros self code; unfold _check_security; rewrite lower_idem; reflexivity. Qed.

(** The screen passes a source ([None]) exactly when its lower-cased text
    holds none of the four import shapes of any banned module and none of
    the dangerous calls. *)
Theorem check_security_none_iff :
  forall self (code : string),
    _check_security self code = None <-> screen_clean self (lower code).
Proof.
  intros self code; unfold _check_security, screen_clean.
  destruct (first_some _ (BANNED_IMPORTS self)) as [r|] eqn:Hb.
  - split; [discriminate|]. intros [Hi _].
    assert (Hn : first_some
      (fun banned => if existsb (fun pattern => contains pattern (lower code)) (import_patterns banned)
                     then Some ("Restricted module detected: " ++ banned) else None)
      (BANNED_IMPORTS self) = None).
    { apply first_some_None; intros b Hin.
      destruct (existsb _ _) eqn:He; [|reflexivity].
      apply existsb_exists in He as (p & Hp & Hc).
      rewrite (Hi b p Hin Hp) in Hc; discriminate. }
    rewrite Hn in Hb; discriminate.
  - rewrite first_some_None. split.
    + intros Hc. split.
      * intros b p Hin Hp.
        apply first_some_None with (x := b) in Hb; [|exact Hin].
        destruct (existsb _ _) eqn:He; [discriminate|].
        destruct (contains p (lower code)) eqn:Hpc; [|reflexivity].
        rewrite <- He; symmetry; apply existsb_exists; exists p; auto.
      * intros call Hin. specialize (Hc call Hin).
        destruct (contains call (lower code)); [discriminate | reflexivity].
    + intros [_ Hd] call Hin. rewrite (Hd call Hin). reflexivity.
Qed.

(** Adding text around a blocked source never unblocks it: the screen
    matches substrings, so whatever pattern it found is still there. *)
Theorem check_security_blocked_extends :
  forall self (code pre post : string),
    _check_security self code <> None ->
    _check_security self (pre ++ code ++ post) <> None.
Proof.
  intros self code pre post Hb Hn.
  apply Hb, check_security_none_iff.
  apply check_security_none_iff in Hn as [Hi Hd].
  rewrite !lower_app in Hi, Hd.
  split.
  - intros b p Hin Hp.
    destruct (contains p (lower code)) eqn:Hc; [|reflexivity].
    specialize (Hi b p Hin Hp).
    rewrite (contains_extend p (lower code) (lower pre) (lower post) Hc) in Hi.
    exact Hi.
  - intros call Hin.
    destruct (contains call (lower code)) eqn:Hc; [|reflexivity].
    rewrite <- (Hd call Hin); symmetry.
    apply contains_extend; exact Hc.
Qed.

(* ------------------------------------------------------------------ *)
(** ** Dispatch and short-circuits of [execute] *)

(** [execute] lower-cases the language before dispatching, so a language
    string and its lower-cased form give the same computation (for
    unsupported languages the lower-cased name is what the evidence and
    the error message carry). *)
Theorem execute_language_case_insensitive :
  forall (RT : PyRuntime) host self (code language : string)
         (tcs : list test_case_dict) (qid qtitle : string),
    execute host self code (lower language) tcs qid qtitle =
    execute host self code language tcs qid qtitle.
Proof. intros; unfold execute; rewrite lower_idem; reflexivity. Qed.

(** Any Python submission the screen rejects, with message [err], is
    answered without launching anything: one [BLOCKED] result per test
    case, not passed, [time_ms = 0], error [err], with [input] and
    [expected] read by [tc.get(key, '')] (so test cases without these keys
    are accepted), and pass rate 0. *)
Theorem execute_blocked_no_launch :
  forall (RT : PyRuntime) host self (code lang : string)
         (tcs : list test_case_dict) (qid qtitle : string) (log : list string) (err : string),
    lower lang = "python" ->
    _check_security self code = Some err ->
    exists ev,
      execute host self code lang tcs qid qtitle log = (Ok ev, log) /\
      language ev = "python" /\
      total_tests ev = length tcs /\
      pass_rate ev = 0%Q /\ avg_time_ms ev = 0%Q /\
      map input (test_cases ev) = map (fun tc => py_str (get_default tc "input" (VStr ""))) tcs /\
      map expected (test_cases ev) = map (fun tc => py_str (get_default tc "expected" (VStr ""))) tcs /\
      Forall (fun r => actual r = "BLOCKED" /\ passed r = false /\ time_ms r = 0%Q /\
                       error r = Some err) (test_cases ev).
Proof.
  intros RT host self code lang tcs qid qtitle log err Hl Hs.
  unfold execute; rewrite Hl, String.eqb_refl.
  unfold execute_python; rewrite Hs.
  eexists; split; [reflexivity|]; cbn [language total_tests pass_rate avg_time_ms test_cases
    mk_evidence _create_security_failure].
  rewrite !map_map; repeat (split; [reflexivity|]).
  apply Forall_map_results; intros tc; simpl; repeat split.
Qed.

(** With no test cases, [execute] never raises and launches nothing, on
    every language and every source: the evidence has no results,
    [total_tests = 0] and pass rate and average time 0. *)
Theorem execute_no_tests :
  forall (RT : PyRuntime) host self (code language qid qtitle : string) (log : list string),
    exists ev,
      execute host self code language [] qid qtitle log = (Ok ev, log) /\
      test_cases ev = [] /\ total_tests ev = 0 /\
      (pass_rate ev == 0)%Q /\ (avg_time_ms ev == 0)%Q.
Proof.
  intros RT host self code language qid qtitle log.
  unfold execute.
  destruct (String.eqb (lower language) "python").
  - unfold execute_python.
    destruct (_check_security self code).
    + eexists; split; [reflexivity|]; cbn; repeat split; reflexivity.
    + eexists; split; [reflexivity|]; cbn; repeat split; reflexivity.
  - destruct (String.eqb (lower language) "java"); [|destruct (String.eqb (lower language) "cpp")];
      (eexists; split; [reflexivity|]; cbn; repeat split; reflexivity).
Qed.

(** The Python pipeline when every per-test result is a pass: the
    statistics loop reads no [partial_credit], and for a non-empty list of
    test cases (fewer than [2^53], so that the float count is exact) the
    pass rate is [100.0]. *)
Theorem execute_python_all_pass :
  forall (RT : PyRuntime) host self (code : string) (tcs : list test_case_dict)
         (qid qtitle : string) (log log' : list string) (rs : list TestCaseResult),
    _check_security self code = None ->
    mapM (_run_single_test_python host self code) tcs log = (Ok rs, log') ->
    Forall (fun r => passed r = true) rs ->
    rs <> [] ->
    (Z.of_nat (length rs) < 2 ^ 53)%Z ->
    exists ev,
      execute_python host self code tcs qid qtitle log = (Ok ev, log') /\
      test_cases ev = rs /\ total_tests ev = length rs /\
      (pass_rate ev == 100)%Q.
Proof.
  intros RT host self code tcs qid qtitle log log' rs Hs Hrun Hall Hne Hbig.
  assert (Hacc : forall l t j lg, Forall (fun r => passed r = true) l ->
            (t == inject_Z j)%Q -> (0 <= j)%Z -> (j + Z.of_nat (length l) < 2 ^ 53)%Z ->
            exists q, accumulate_score l t lg = (Ok q, lg) /\
                      (q == inject_Z (j + Z.of_nat (length l)))%Q).
  { induction l as [|r l IH]; intros t j lg Hl Ht Hj Hlt; cbn [accumulate_score length].
    - exists t; split; [reflexivity|]. rewrite Z.add_0_r; exact Ht.
    - inversion Hl as [|? ? Hr Hl']; subst. rewrite Hr.
      cbn [length] in Hlt; rewrite Nat2Z.inj_succ in Hlt |- *.
      destruct (IH (to_double (t + 1)) (j + 1)%Z lg Hl') as (q & Hq & Hqe); [| lia | lia |].
      + rewrite (to_double_comp (t + 1) (inject_Z (j + 1))).
        * apply to_double_Z; lia.
        * rewrite Ht, inject_Z_plus; reflexivity.
      + exists q; split; [exact Hq|]. rewrite Hqe.
        replace (j + 1 + Z.of_nat (length l))%Z with (j + Z.succ (Z.of_nat (length l)))%Z by lia.
        reflexivity. }
  unfold execute_python; rewrite Hs.
  unfold bind at 1; rewrite Hrun.
  destruct (Hacc rs 0%Q 0%Z log' Hall (Qeq_refl _) (Z.le_refl _) Hbig) as (q & Hq & Hqe).
  unfold bind; rewrite Hq.
  destruct (length rs) as [|n] eqn:Hn; [destruct rs; [contradiction Hne; reflexivity | discriminate]|].
  eexists; split; [reflexivity|]; cbn [test_cases total_tests pass_rate avg_time_ms mk_evidence].
  split; [reflexivity|]; split; [reflexivity|].
  simpl Nat.eqb; cbv iota.
  set (m := inject_Z (Z.of_nat (S n))) in *.
  assert (Hm : ~ (m == 0)%Q).
  { unfold m; change 0%Q with (inject_Z 0); rewrite inject_Z_injective; lia. }
  assert (H1 : (q / to_double m == 1)%Q).
  { rewrite Hqe, Z.add_0_l. unfold m. rewrite (to_double_Z (Z.of_nat (S n))) by lia.
    fold m. unfold Qdiv. apply Qmult_inv_r. exact Hm. }
  rewrite (to_double_comp _ _ H1).
  vm_compute; reflexivity.
Qed.

(* ------------------------------------------------------------------ *)
(** ** The comparator and the similarity score *)

(** The comparator passes exactly by one of its first three rules: Python
    equality, equal stripped [str()] forms, or equal [float()] values.  The
    boolean and list rules come after [actual == expected] has already
    failed and re-test that very equality, so they never pass a test. *)
Theorem compare_outputs_first_three_rules :
  forall (RT : PyRuntime) (actual expected : pyval),
    _compare_outputs actual expected =
    py_eq actual expected ||
    String.eqb (strip (py_str actual)) (strip (py_str expected)) ||
    match py_float actual, py_float expected with
    | Some x, Some y => Qeq_bool x y
    | _, _ => false
    end.
Proof.
  intros RT a e; unfold _compare_outputs.
  destruct (py_eq a e) eqn:He; [reflexivity|].
  destruct (String.eqb _ _); [reflexivity|].
  cbn [orb].
  destruct (match py_float a, py_float e with Some x, Some y => Qeq_bool x y | _, _ => false end);
    [reflexivity|].
  destruct e; try reflexivity; try (rewrite He; reflexivity);
    destruct a; try reflexivity; rewrite He; reflexivity.
Qed.

(** The similarity score is always between 0 and 100; it is 100 when the
    stripped [str()] forms agree, and 0 when they differ and one of them
    is empty. *)
Theorem calculate_similarity_range :
  forall (RT : PyRuntime) (actual expected : pyval),
    (0 <= _calculate_similarity actual expected <= 100)%Q /\
    (strip (py_str actual) = strip (py_str expected) ->
     _calculate_similarity actual expected = 100%Q) /\
    (strip (py_str actual) <> strip (py_str expected) ->
     strip (py_str actual) = "" \/ strip (py_str expected) = "" ->
     _calculate_similarity actual expected = 0%Q).
Proof.
  intros RT a e; split; [apply calculate_similarity_bounds|]; split.
  - intros H; unfold _calculate_similarity; rewrite H, String.eqb_refl; reflexivity.
  - intros H Hemp; unfold _calculate_similarity.
    apply String.eqb_neq in H; rewrite H.
    destruct Hemp as [Hz|Hz]; rewrite Hz; simpl; [reflexivity | rewrite orb_true_r; reflexivity].
Qed.

(* ------------------------------------------------------------------ *)
(** ** The edit distance *)

Local Open Scope list_scope.

(** The textbook edit distance (unit-cost insertion, deletion and
    substitution), by recursion on the last characters: [edit_distance_rev]
    takes both strings reversed. *)
Fixpoint edit_distance_rev (r1 r2 : list ascii) : nat :=
  match r1 with
  | [] => length r2
  | a :: r1' =>
      (fix go (r2 : list ascii) : nat :=
         match r2 with
         | [] => length r1
         | b :: r2' =>
             Nat.min (Nat.min (edit_distance_rev r1' r2 + 1) (go r2' + 1))
                     (edit_distance_rev r1' r2' + (if Ascii.eqb a b then 0 else 1))
         end) r2
  end.

Definition edit_distance (s1 s2 : list ascii) : nat := edit_distance_rev (rev s1) (rev s2).

(** Entries [j+1 ..] of the row of prefix [p] against [q ++ rest]. *)
Fixpoint ed_row_tail (p q rest : list ascii) : list nat :=
  match rest with
  | [] => []
  | c :: rest' => edit_distance p (q ++ [c]) :: ed_row_tail p (q ++ [c]) rest'
  end.

Definition ed_row (p q rest : list ascii) : list nat := edit_distance p q :: ed_row_tail p q rest.

Lemma edit_distance_rev_cons_cons (a b : ascii) (r1 r2 : list ascii) :
  edit_distance_rev (a :: r1) (b :: r2) =
  Nat.min (Nat.min (edit_distance_rev r1 (b :: r2) + 1) (edit_distance_rev (a :: r1) r2 + 1))
          (edit_distance_rev r1 r2 + (if Ascii.eqb a b then 0 else 1)).
Proof. reflexivity. Qed.

Lemma edit_distance_rev_nil_r (r : list ascii) : edit_distance_rev r [] = length r.
Proof. destruct r; reflexivity. Qed.

Lemma edit_distance_nil_l (q : list ascii) : edit_distance [] q = length q.
Proof. unfold edit_distance; simpl; apply length_rev. Qed.

Lemma edit_distance_nil_r (p : list ascii) : edit_distance p [] = length p.
Proof. unfold edit_distance; simpl; rewrite edit_distance_rev_nil_r; apply length_rev. Qed.

Lemma edit_distance_snoc (p q : list ascii) (a b : ascii) :
  edit_distance (p ++ [a]) (q ++ [b]) =
  Nat.min (Nat.min (edit_distance p (q ++ [b]) + 1) (edit_distance (p ++ [a]) q + 1))
          (edit_distance p q + (if Ascii.eqb a b then 0 else 1)).
Proof.
  unfold edit_distance; rewrite !rev_app_distr; simpl.
  apply edit_distance_rev_cons_cons.
Qed.

Lemma lev_row_ed_row (c1 : ascii) (p : list ascii) :
  forall rest q,
    lev_row c1 rest (ed_row p q rest) (edit_distance (p ++ [c1]) q) =
    ed_row_tail (p ++ [c1]) q rest.
Proof.
  induction rest as [|c2 rest IH]; intros q; [reflexivity|].
  unfold ed_row; cbn [ed_row_tail].
  destruct rest as [|c3 rest'].
  - cbn [ed_row_tail lev_row]. rewrite <- edit_distance_snoc. reflexivity.
  - cbn [ed_row_tail lev_row].
    rewrite <- edit_distance_snoc. f_equal.
    specialize (IH (q ++ [c2])). unfold ed_row in IH; cbn [ed_row_tail] in IH.
    exact IH.
Qed.

Lemma lev_rows_ed_row (s2 : list ascii) :
  forall s1 p,
    lev_rows s1 (length p) s2 (ed_row p [] s2) = ed_row (p ++ s1) [] s2.
Proof.
  induction s1 as [|c1 s1 IH]; intros p; cbn [lev_rows].
  - rewrite app_nil_r; reflexivity.
  - assert (Hl : S (length p) = edit_distance (p ++ [c1]) []).
    { rewrite edit_distance_nil_r, length_app; simpl; lia. }
    replace (S (length p) :: lev_row c1 s2 (ed_row p [] s2) (S (length p)))
      with (ed_row (p ++ [c1]) [] s2).
    2: { unfold ed_row at 1. rewrite <- lev_row_ed_row, <- Hl. reflexivity. }
    replace (S (length p)) with (length (p ++ [c1])) by (rewrite length_app; simpl; lia).
    rewrite IH, <- app_assoc; reflexivity.
Qed.

Lemma ed_row_tail_nil (rest : list ascii) :
  forall q, ed_row_tail [] q rest = seq (S (length q)) (length rest).
Proof.
  induction rest as [|c rest IH]; intros q; [reflexivity|].
  cbn [ed_row_tail length seq]. rewrite edit_distance_nil_l, IH, length_app; simpl.
  f_equal; [lia|]. f_equal; lia.
Qed.

Lemma ed_row_last (p : list ascii) :
  forall rest q d, last (ed_row p q rest) d = edit_distance p (q ++ rest).
Proof.
  induction rest as [|c rest IH]; intros q d.
  - rewrite app_nil_r; reflexivity.
  - assert (Hc : last (ed_row p q (c :: rest)) d = last (ed_row p (q ++ [c]) rest) d) by reflexivity.
    rewrite Hc, IH, <- app_assoc; reflexivity.
Qed.

Lemma lev_core_edit_distance (s1 s2 : list ascii) : lev_core s1 s2 = edit_distance s1 s2.
Proof.
  unfold lev_core.
  destruct (length s2 =? 0) eqn:H0.
  - apply Nat.eqb_eq, length_zero_iff_nil in H0; subst s2.
    rewrite edit_distance_nil_r; reflexivity.
  - assert (Hs : seq 0 (length s2 + 1) = ed_row [] [] s2).
    { unfold ed_row; rewrite ed_row_tail_nil, edit_distance_nil_l, Nat.add_1_r; reflexivity. }
    rewrite Hs.
    change 0 with (length (@nil ascii)) at 1.
    rewrite lev_rows_ed_row, ed_row_last; reflexivity.
Qed.

Lemma edit_distance_rev_sym (r1 r2 : list ascii) : edit_distance_rev r1 r2 = edit_distance_rev r2 r1.
Proof.
  revert r2; induction r1 as [|a r1 IH1]; intros r2.
  - rewrite edit_distance_rev_nil_r; reflexivity.
  - induction r2 as [|b r2 IH2].
    + rewrite edit_distance_rev_nil_r; reflexivity.
    + rewrite !edit_distance_rev_cons_cons, IH2, (IH1 (b :: r2)), (IH1 r2),
        (Ascii.eqb_sym a b). lia.
Qed.

Lemma edit_distance_rev_refl (r : list ascii) : edit_distance_rev r r = 0.
Proof.
  induction r as [|a r IH]; [reflexivity|].
  rewrite edit_distance_rev_cons_cons, IH, Ascii.eqb_refl. lia.
Qed.

(** The nested [levenshtein_distance] of [_calculate_similarity] (which
    swaps its arguments so that the longer string drives the outer loop)
    computes the textbook edit distance of the two strings. *)
Theorem levenshtein_distance_is_edit_distance :
  forall s1 s2 : list ascii, levenshtein_distance s1 s2 = edit_distance s1 s2.
Proof.
  intros s1 s2; unfold levenshtein_distance.
  destruct (length s1 <? length s2); rewrite lev_core_edit_distance; [|reflexivity].
  unfold edit_distance; apply edit_distance_rev_sym.
Qed.

(** The distance used for similarity is symmetric, zero from a string to
    itself, and at most the length of the longer string. *)
Theorem levenshtein_distance_metric :
  forall s1 s2 : list ascii,
    levenshtein_distance s1 s2 = levenshtein_distance s2 s1 /\
    levenshtein_distance s1 s1 = 0 /\
    levenshtein_distance s1 s2 <= Nat.max (length s1) (length s2).
Proof.
  intros s1 s2.
  assert (He : forall x y, levenshtein_distance x y = edit_distance x y).
  { intros x y; unfold levenshtein_distance.
    destruct (length x <? length y); rewrite lev_core_edit_distance; [|reflexivity].
    unfold edit_distance; apply edit_distance_rev_sym. }
  rewrite !He; split; [unfold edit_distance; apply edit_distance_rev_sym|].
  split; [unfold edit_distance; apply edit_distance_rev_refl|].
  rewrite <- He; apply levenshtein_distance_bound.
Qed.

Local Open Scope string_scope.
Local Open Scope nat_scope.

(* ------------------------------------------------------------------ *)
(** ** The per-test runner *)

Lemma str_app_nil_r (s : string) : s ++ "" = s.
Proof. induction s as [|c s IH]; simpl; [reflexivity|]. rewrite IH; reflexivity. Qed.

Lemma contains_self (s : string) : contains s s = true.
Proof. apply contains_spec; exists "", ""; simpl; rewrite str_app_nil_r; reflexivity. Qed.

Lemma join_contains (sep x : string) (l : list string) :
  In x l -> contains x (join sep l) = true.
Proof.
  induction l as [|y l IH]; intros Hin; [destruct Hin|].
  destruct l as [|z l].
  - destruct Hin as [<-|[]]; apply contains_self.
  - change (join sep (y :: z :: l)) with (y ++ sep ++ join sep (z :: l)).
    apply contains_spec.
    destruct Hin as [<-|Hin].
    + exists "", (sep ++ join sep (z :: l)); reflexivity.
    + destruct (proj1 (contains_spec _ _) (IH Hin)) as (pre & post & Hj).
      rewrite Hj. exists (y ++ sep ++ pre), post.
      rewrite !str_app_assoc; reflexivity.
Qed.

Lemma truncate_length (s : string) (n : nat) : String.length (truncate s n) <= n.
Proof.
  unfold truncate; revert s; induction n as [|n IH]; intros s;
    destruct s as [|c s]; simpl; try lia.
  specialize (IH s); lia.
Qed.

(** A test case dict that lacks a key fails the runner with [KeyError]:
    without ["input"] before anything is launched; with ["input"] but
    without ["expected"] after the program has been launched, whatever the
    process did, since the [except] handlers read [test_case['expected']]
    again. *)
Theorem run_single_missing_key :
  forall (RT : PyRuntime) host self (code : string) (tc : test_case_dict) (log : list string),
    (dict_get tc "input" = None ->
     _run_single_test_python host self code tc log =
       (Raise (PyException "KeyError" (str_repr "input")), log)) /\
    (forall i, dict_get tc "input" = Some i -> dict_get tc "expected" = None ->
     _run_single_test_python host self code tc log =
       (Raise (PyException "KeyError" (str_repr "expected")),
        app log [_build_test_wrapper self code i])).
Proof.
  intros RT host self code tc log; split.
  - intros Hi; unfold _run_single_test_python, bind, getitem, raise; rewrite Hi; reflexivity.
  - intros i Hi Hx.
    unfold _run_single_test_python, parse_output, timeout_call, exception_call,
      bind, getitem, try_except, run_process, ret, raise.
    rewrite Hi, Hx.
    destruct (host (length log) (_build_test_wrapper self code i)) as [rc out err t| |m];
      [destruct (rc =? 0)%Z; [destruct (json_loads (strip out)) as [[]|]|]|..]; reflexivity.
Qed.

(** A process that exits with a non-zero code yields [actual = "ERROR"],
    the stripped stderr cut to 500 characters as error (["Unknown error"]
    for an empty stderr), and a verdict that is the comparison of the
    string ["ERROR"] with the expected value: a crashing submission passes
    a test whose expected value is ["ERROR"]. *)
Theorem run_single_nonzero_exit :
  forall (RT : PyRuntime) host self (code : string) (tc : test_case_dict) (log : list string)
         (i x : pyval) (rc : Z) (out err : string) (t : Q),
    dict_get tc "input" = Some i ->
    dict_get tc "expected" = Some x ->
    host (length log) (_build_test_wrapper self code i) = Exited rc out err t ->
    rc <> 0%Z ->
    _run_single_test_python host self code tc log =
      (Ok {| input := py_str i; expected := py_str x; actual := "ERROR";
             passed := _compare_outputs (VStr "ERROR") x;
             time_ms := round_float t 2;
             error := Some (if String.eqb err "" then "Unknown error"
                            else truncate (strip err) 500) |},
       app log [_build_test_wrapper self code i]).
Proof.
  intros RT host self code tc log i x rc out err t Hi Hx Hh Hrc.
  unfold _run_single_test_python, parse_output, bind, getitem, try_except, run_process, ret.
  rewrite Hi, Hh, Hx.
  apply Z.eqb_neq in Hrc; rewrite Hrc.
  reflexivity.
Qed.

(** For a test case with both keys, the runner launches exactly one
    program, the wrapper, which holds the candidate's code verbatim, the
    line assigning [repr(input)] and the memory-limit line; whatever the
    process does, the result records [str(input)] and [str(expected)], and
    its error is absent, the timeout message, or at most 500 characters
    long. *)
Theorem run_single_result_shape :
  forall (RT : PyRuntime) host self (code : string) (tc : test_case_dict) (log : list string)
         (i x : pyval),
    dict_get tc "input" = Some i ->
    dict_get tc "expected" = Some x ->
    let prog := _build_test_wrapper self code i in
    contains code prog = true /\
    contains ("    test_input = " ++ py_repr i) prog = true /\
    contains ("    memory_limit = " ++ Z_to_dec (MAX_MEMORY_MB self) ++ " * 1024 * 1024") prog = true /\
    exists r,
      _run_single_test_python host self code tc log = (Ok r, app log [prog]) /\
      input r = py_str i /\ expected r = py_str x /\
      (error r = None \/
       error r = Some ("Execution exceeded " ++ Z_to_dec (TIMEOUT_SECONDS self) ++ "s time limit") \/
       exists s, error r = Some s /\ String.length s <= 500).
Proof.
  intros RT host self code tc log i x Hi Hx prog.
  split; [apply join_contains; unfold prog; simpl; tauto|].
  split; [apply join_contains; unfold prog; simpl; tauto|].
  split; [apply join_contains; unfold prog; simpl; tauto|].
  unfold prog, _run_single_test_python, parse_output, timeout_call, exception_call,
    bind, getitem, try_except, run_process, ret, raise.
  rewrite Hi, Hx.
  destruct (host (length log) (_build_test_wrapper self code i)) as [rc out err t| |m].
  - destruct (rc =? 0)%Z; [destruct (json_loads (strip out)) as [[]|]|];
      (eexists; split; [reflexivity|]); cbn [TestCaseResult_new graded_call exception_call
        input expected error c_input c_expected c_error];
      (split; [reflexivity|]); (split; [reflexivity|]);
      try (left; reflexivity);
      right; right; eexists; (split; [reflexivity|]);
      try apply truncate_length; try (simpl; lia).
    destruct (String.eqb err ""); [simpl; lia | apply truncate_length].
  - eexists; split; [reflexivity|]; simpl; split; [reflexivity|]; split; [reflexivity|].
    right; left; reflexivity.
  - eexists; split; [reflexivity|]; simpl; split; [reflexivity|]; split; [reflexivity|].
    right; right; eexists; split; [reflexivity|].
    pose proof (truncate_length m 200); lia.
Qed.

(** The runner consults the host once, at the current launch index; its
    result depends on nothing else of the state. *)
Lemma run_single_host_local (RT : PyRuntime) host host' self (code : string)
  (tc : test_case_dict) (log log' : list string) :
  (forall prog, host (length log) prog = host' (length log') prog) ->
  fst (_run_single_test_python host self code tc log) =
  fst (_run_single_test_python host' self code tc log').
Proof.
  intros H.
  unfold _run_single_test_python, parse_output, timeout_call, exception_call,
    bind, getitem, try_except, run_process, ret, raise.
  destruct (dict_get tc "input") as [i|]; [|reflexivity].
  rewrite H.
  destruct (host' (length log') (_build_test_wrapper self code i)) as [rc out err t| |m];
    [destruct (rc =? 0)%Z; [destruct (json_loads (strip out)) as [[]|]|]|..];
    destruct (dict_get tc "expected"); reflexivity.
Qed.

(** Test cases are graded in isolation: for well-formed test cases the
    [k]-th result of the loop is exactly the result test case [k] gets when
    run alone, against a host that answers as the real one does at launch
    number [length log + k]; what the other test cases do (crash, time out,
    fail to launch) never changes it. *)
Theorem run_loop_isolated :
  forall (RT : PyRuntime) host self (code : string) (tcs : list test_case_dict)
         (log : list string),
    Forall well_formed tcs ->
    exists rs,
      mapM (_run_single_test_python host self code) tcs log =
        (Ok rs, app log (map (harness self code) tcs)) /\
      length rs = length tcs /\
      forall k tc, nth_error tcs k = Some tc ->
        exists r, nth_error rs k = Some r /\
          fst (_run_single_test_python (fun n => host (length log + k + n)) self code tc []) = Ok r.
Proof.
  intros RT host self code tcs; induction tcs as [|tc tcs IH]; intros log Hwf.
  - exists []; split; [rewrite app_nil_r; reflexivity|]; split; [reflexivity|].
    intros k tc Hk; destruct k; discriminate.
  - inversion Hwf as [|? ? Htc Hrest]; subst.
    destruct (run_single_terminal RT host self code tc log Htc) as (r & Hr & _).
    destruct (IH (app log [harness self code tc]) Hrest) as (rs & Hrs & Hlen & Hk).
    exists (r :: rs); split.
    + simpl; unfold bind at 1; rewrite Hr; unfold bind; rewrite Hrs.
      unfold ret; rewrite <- app_assoc; reflexivity.
    + split; [simpl; lia|].
      intros [|k] tc' Hnth; simpl in Hnth.
      * injection Hnth as <-; exists r; split; [reflexivity|].
        rewrite (run_single_host_local RT (fun n => host (length log + 0 + n)) host self code tc [] log);
          [rewrite Hr; reflexivity|].
        intros prog; simpl; rewrite !Nat.add_0_r; reflexivity.
      * destruct (Hk k tc' Hnth) as (r' & Hr' & Hrun).
        exists r'; split; [exact Hr'|].
        rewrite <- Hrun.
        apply run_single_host_local; intros prog; simpl.
        rewrite length_app; simpl; f_equal; lia.
Qed.

(* ------------------------------------------------------------------ *)
(** ** Witnesses of the further properties *)

Definition add_one_code : string := "def solution(x):" ++ nl ++ "    return x + 1".

Lemma check_security_none_iff_witness :
  screen_clean CodeSandbox_default (lower add_one_code).
Proof. apply (check_security_none_iff CodeSandbox_default add_one_code). vm_compute. reflexivity. Defined.

Lemma check_security_blocked_extends_witness :
  _check_security CodeSandbox_default "Import OS" <> None /\
  _check_security CodeSandbox_default (add_one_code ++ "Import OS" ++ nl) <> None.
Proof.
  split; [vm_compute; discriminate|].
  apply (check_security_blocked_extends CodeSandbox_default "Import OS" add_one_code nl).
  vm_compute; discriminate.
Defined.

Lemma execute_blocked_no_launch_witness :
  exists ev,
    execute (RT := CPython_min) timeout_first_host CodeSandbox_default
      "import socket" "PYTHON" sample_tests "q" "t" [] = (Ok ev, []) /\
    language ev = "python" /\ total_tests ev = 2 /\ pass_rate ev = 0%Q /\ avg_time_ms ev = 0%Q /\
    map input (test_cases ev) = map (fun tc => py_str (RT := CPython_min) (get_default tc "input" (VStr ""))) sample_tests /\
    map expected (test_cases ev) = map (fun tc => py_str (RT := CPython_min) (get_default tc "expected" (VStr ""))) sample_tests /\
    Forall (fun r => actual r = "BLOCKED" /\ passed r = false /\ time_ms r = 0%Q /\
                     error r = Some "Restricted module detected: socket") (test_cases ev).
Proof.
  apply (execute_blocked_no_launch CPython_min timeout_first_host CodeSandbox_default
           "import socket" "PYTHON" sample_tests "q" "t" [] "Restricted module detected: socket");
    vm_compute; reflexivity.
Defined.

Definition add_one_host : nat -> string -> ProcOutcome :=
  fun _ _ => Exited 0 (result_line "2") "" 5%Q.

Definition add_one_tests : list test_case_dict := [[("input", VInt 1); ("expected", VInt 2)]].

Lemma execute_python_all_pass_witness :
  exists rs log',
    mapM (_run_single_test_python (RT := CPython_min) add_one_host CodeSandbox_default add_one_code)
      add_one_tests [] = (Ok rs, log') /\
    Forall (fun r => passed r = true) rs /\ rs <> [] /\
    (Z.of_nat (length rs) < 2 ^ 53)%Z /\
    exists ev,
      execute_python (RT := CPython_min) add_one_host CodeSandbox_default add_one_code
        add_one_tests "q" "t" [] = (Ok ev, log') /\
      (pass_rate ev == 100)%Q.
Proof.
  eexists; eexists; split; [vm_compute; reflexivity|].
  split; [repeat constructor|]. split; [discriminate|]. split; [vm_compute; reflexivity|].
  destruct (execute_python_all_pass CPython_min add_one_host CodeSandbox_default add_one_code
              add_one_tests "q" "t" [] _ _ ltac:(vm_compute; reflexivity)
              ltac:(vm_compute; reflexivity) ltac:(repeat constructor) ltac:(discriminate)
              ltac:(vm_compute; reflexivity))
    as (ev & Hev & _ & _ & Hr).
  exists ev; split; [exact Hev | exact Hr].
Defined.

Lemma calculate_similarity_range_witness :
  (0 <= _calculate_similarity (RT := CPython_min) (VStr "ab") (VStr "abc") <= 100)%Q /\
  _calculate_similarity (RT := CPython_min) (VStr " 7") (VInt 7) = 100%Q /\
  _calculate_similarity (RT := CPython_min) (VStr "  ") (VInt 7) = 0%Q.
Proof.
  destruct (calculate_similarity_range CPython_min (VStr "ab") (VStr "abc")) as [H1 _].
  destruct (calculate_similarity_range CPython_min (VStr " 7") (VInt 7)) as [_ [H2 _]].
  destruct (calculate_similarity_range CPython_min (VStr "  ") (VInt 7)) as [_ [_ H3]].
  split; [exact H1|]. split; [apply H2; vm_compute; reflexivity|].
  apply H3; [vm_compute; discriminate | left; vm_compute; reflexivity].
Defined.

Lemma run_single_missing_key_witness :
  _run_single_test_python (RT := CPython_min) add_one_host CodeSandbox_default add_one_code
    [("expected", VInt 2)] [] = (Raise (PyException "KeyError" (str_repr_min "input")), []) /\
  _run_single_test_python (RT := CPython_min) add_one_host CodeSandbox_default add_one_code
    [("input", VInt 1)] [] =
    (Raise (PyException "KeyError" (str_repr_min "expected")),
     [_build_test_wrapper (RT := CPython_min) CodeSandbox_default add_one_code (VInt 1)]).
Proof.
  split.
  - apply (proj1 (run_single_missing_key CPython_min add_one_host CodeSandbox_default add_one_code
                    [("expected", VInt 2)] [])); reflexivity.
  - apply (proj2 (run_single_missing_key CPython_min add_one_host CodeSandbox_default add_one_code
                    [("input", VInt 1)] []) (VInt 1)); reflexivity.
Defined.

Definition crash_host : nat -> string -> ProcOutcome :=
  fun _ _ => Exited 1 "" "Traceback: ZeroDivisionError" 4%Q.

Lemma run_single_nonzero_exit_witness :
  _run_single_test_python (RT := CPython_min) crash_host CodeSandbox_default add_one_code
    [("input", VInt 1); ("expected", VStr "ERROR")] [] =
    (Ok {| input := "1"; expected := "ERROR"; actual := "ERROR";
           passed := _compare_outputs (RT := CPython_min) (VStr "ERROR") (VStr "ERROR");
           time_ms := round_float 4 2;
           error := Some (if String.eqb "Traceback: ZeroDivisionError" "" then "Unknown error"
                          else truncate (strip "Traceback: ZeroDivisionError") 500) |},
     [_build_test_wrapper (RT := CPython_min) CodeSandbox_default add_one_code (VInt 1)]) /\
  _compare_outputs (RT := CPython_min) (VStr "ERROR") (VStr "ERROR") = true.
Proof.
  split; [|reflexivity].
  apply (run_single_nonzero_exit CPython_min crash_host CodeSandbox_default add_one_code
           [("input", VInt 1); ("expected", VStr "ERROR")] [] (VInt 1) (VStr "ERROR")
           1%Z "" "Traceback: ZeroDivisionError" 4%Q);
    [reflexivity | reflexivity | reflexivity | discriminate].
Defined.

Lemma run_single_result_shape_witness :
  let prog := _build_test_wrapper (RT := CPython_min) CodeSandbox_default add_one_code (VInt 1) in
  contains add_one_code prog = true /\
  exists r,
    _run_single_test_python (RT := CPython_min) timeout_first_host CodeSandbox_default add_one_code
      [("input", VInt 1); ("expected", VInt 2)] [] = (Ok r, [prog]) /\
    input r = "1".
Proof.
  destruct (run_single_result_shape CPython_min timeout_first_host CodeSandbox_default add_one_code
              [("input", VInt 1); ("expected", VInt 2)] [] (VInt 1) (VInt 2)
              eq_refl eq_refl) as (Hc & _ & _ & r & Hr & Hi & _ & _).
  split; [exact Hc|]. exists r; split; [exact Hr | exact Hi].
Defined.

Lemma run_loop_isolated_witness :
  exists rs,
    mapM (_run_single_test_python (RT := CPython_min) timeout_first_host CodeSandbox_default
            add_one_code) sample_tests [] =
      (Ok rs, map (harness (RT := CPython_min) CodeSandbox_default add_one_code) sample_tests) /\
    length rs = 2.
Proof.
  destruct (run_loop_isolated CPython_min timeout_first_host CodeSandbox_default add_one_code
              sample_tests [] sample_tests_well_formed) as (rs & Hrs & Hlen & _).
  exists rs; split; [exact Hrs | exact Hlen].
Defined.
